(** * kafkaconnect.s3_sink.cli: the [create_s3_sink] command

    A shallow embedding of [src/kafkaconnect/s3_sink/cli.py].  The command
    talks to three collaborators that live outside that file: topic discovery
    ([Topic(...).names]), the Connect REST client ([Connect.validate],
    [Connect.create_or_update]) and the terminal ([click.echo],
    [time.sleep]).  Every such call is recorded in a trace of events, and the
    answer it receives (a value or a raised exception) is read from a
    [World].  Python's local variables [topics] and [s3config] are threaded
    as explicit state; [return] and [raise] are control outcomes of a small
    monad. *)

From Stdlib Require Import ZArith List String Floats.PrimFloat.
From stdpp Require Import base strings gmap.
Import ListNotations.
Open Scope string_scope.
Open Scope list_scope.

(** ** Exceptions and outcomes of external calls *)

(** The exceptions the command distinguishes.  [except Exception] catches
    everything but [KeyboardInterrupt]; [except KeyboardInterrupt] catches
    only that one. *)
Inductive exn : Type :=
| KeyboardInterrupt
| ClickException (msg : string)
| PyException (kind : string).

Definition is_Exception (e : exn) : bool :=
  match e with
  | KeyboardInterrupt => false
  | ClickException _ | PyException _ => true
  end.

Definition is_KeyboardInterrupt (e : exn) : bool :=
  match e with
  | KeyboardInterrupt => true
  | ClickException _ | PyException _ => false
  end.

(** What an external call answers: it returns a value or raises. *)
Inductive outcome (A : Type) : Type :=
| Returns (a : A)
| Raises (e : exn).
Arguments Returns {A} a.
Arguments Raises {A} e.

(** ** Values produced by [json.loads] *)

#[local] Set Warnings "-register-all".
Inductive json : Type :=
| JNull
| JBool (b : bool)
| JInt (n : Z)
| JFloat (f : float)
| JStr (s : string)
| JArr (items : list json)
| JObj (fields : list (string * json)).

(** [d[key]] on a Python dict whose keys are unique. *)
Fixpoint dict_get (key : string) (fields : list (string * json)) : option json :=
  match fields with
  | [] => None
  | (k, v) :: rest => if String.eqb k key then Some v else dict_get key rest
  end.

(** [v[key]] for a string key: only a dict holding the key answers; a missing
    key raises KeyError, any other value raises TypeError. *)
Definition subscript (v : json) (key : string) : outcome json :=
  match v with
  | JObj fields =>
      match dict_get key fields with
      | Some x => Returns x
      | None => Raises (PyException "KeyError")
      end
  | _ => Raises (PyException "TypeError")
  end.

(** [v > 0]: defined on int, float and bool ([True] is 1), TypeError on the
    rest. *)
Definition gt_zero (v : json) : outcome bool :=
  match v with
  | JInt n => Returns (0 <? n)%Z
  | JFloat f => Returns (PrimFloat.ltb PrimFloat.zero f)
  | JBool b => Returns b
  | _ => Raises (PyException "TypeError")
  end.

(** ** Configuration records *)

(** The two attributes of [ctx.parent.obj["config"]] the command reads. *)
Record Config : Type := {
  broker_url : string;
  connect_url : string
}.

(** Modelled from the spec: the [S3Config] class of
    [kafkaconnect.s3_sink.config] is not part of the source at hand.  The
    record holds the constructor arguments of lines 250-263 and the [topics]
    field, "serialized as a comma-joined ordered list". *)
Record S3Config : Type := {
  cfg_name : string;
  cfg_s3_bucket_name : string;
  cfg_s3_region : string;
  cfg_topics_dir : string;
  cfg_flush_size : Z;
  cfg_rotate_interval_ms : Z;
  cfg_partition_duration_ms : Z;
  cfg_tasks_max : Z;
  cfg_locale : string;
  cfg_timezone : string;
  cfg_timestamp_extractor : string;
  cfg_timestamp_field : string;
  cfg_topics : string
}.

(** Modelled from the spec: [update_topics] is the "with_topics transform
    that replaces the topics field and nothing else". *)
Definition update_topics (topics : list string) (c : S3Config) : S3Config :=
  {| cfg_name := cfg_name c;
     cfg_s3_bucket_name := cfg_s3_bucket_name c;
     cfg_s3_region := cfg_s3_region c;
     cfg_topics_dir := cfg_topics_dir c;
     cfg_flush_size := cfg_flush_size c;
     cfg_rotate_interval_ms := cfg_rotate_interval_ms c;
     cfg_partition_duration_ms := cfg_partition_duration_ms c;
     cfg_tasks_max := cfg_tasks_max c;
     cfg_locale := cfg_locale c;
     cfg_timezone := cfg_timezone c;
     cfg_timestamp_extractor := cfg_timestamp_extractor c;
     cfg_timestamp_field := cfg_timestamp_field c;
     cfg_topics := String.concat "," topics |}.

(** The parameters of [create_s3_sink], named as in the source. *)
Record Args : Type := {
  ctx_parent : option Config;
  topiclist : list string;
  name : string;
  s3_bucket_name : string;
  s3_region : string;
  topics_dir : string;
  flush_size : Z;
  rotate_interval_ms : Z;
  partition_duration_ms : Z;
  tasks_max : Z;
  topic_regex : string;
  dry_run : bool;
  auto_update : bool;
  validate : bool;
  check_interval : Z;
  excluded_topics : string;
  locale : string;
  timezone : string;
  timestamp_extractor : string;
  timestamp_field : string
}.

(** ** Events *)

(** What [click.echo] prints.  The f-strings keep their argument. *)
Inductive message : Type :=
| Text (s : string)
| FoundTopics (n : nat)
| ValidationReturned (error_count : json)
| Uploading (connector : string).

(** The calls that leave the function.  [Sleep] records
    [time.sleep(int(check_interval) / 1000)] by its interval in
    milliseconds. *)
Inductive event : Type :=
| Echo (m : message)
| Discover (broker regex excluded : string)
| Validate (connector_class connect_config : string)
| CreateOrUpdate (connector connect_config : string)
| Sleep (milliseconds : Z).

Definition is_validate (ev : event) : bool :=
  match ev with Validate _ _ => true | _ => false end.

Definition is_create_or_update (ev : event) : bool :=
  match ev with CreateOrUpdate _ _ => true | _ => false end.

Definition is_gateway_call (ev : event) : bool :=
  is_validate ev || is_create_or_update ev.

Definition is_sleep (ev : event) : bool :=
  match ev with Sleep _ => true | _ => false end.

(** ** The world *)

(** The answers of one iteration of the [while True] loop. *)
Record TickWorld : Type := {
  sleep_result : outcome unit;
  tick_names : outcome (list string);
  tick_create_or_update : outcome unit
}.

(** The answers of the one-shot part, and of the loop iterations that are
    observed. *)
Record World : Type := {
  first_names : outcome (list string);
  first_validate : outcome string;
  first_create_or_update : outcome unit;
  ticks : list TickWorld
}.

(** ** State and control *)

(** The trace so far and the two locals the loop updates. *)
Record St : Type := {
  trace : list event;
  topics : list string;
  s3config : S3Config
}.

Inductive ctl (A : Type) : Type :=
| Normal (a : A)          (* fell through to the next statement *)
| Returned (code : Z)     (* a [return] statement was executed *)
| Raised (e : exn)        (* an exception is propagating *)
| Looping.                (* inside [while True], observation window over *)
Arguments Normal {A} a.
Arguments Returned {A} code.
Arguments Raised {A} e.
Arguments Looping {A}.

Definition M (A : Type) : Type := St -> ctl A * St.

Definition ret {A} (a : A) : M A := fun s => (Normal a, s).

Definition bind {A B} (m : M A) (f : A -> M B) : M B :=
  fun s =>
    match m s with
    | (Normal a, s') => f a s'
    | (Returned z, s') => (Returned z, s')
    | (Raised e, s') => (Raised e, s')
    | (Looping, s') => (Looping, s')
    end.

#[global] Instance M_ret : MRet M := @ret.
#[global] Instance M_bind : MBind M := fun A B f m => bind m f.

Definition return_ {A} (code : Z) : M A := fun s => (Returned code, s).
Definition raise {A} (e : exn) : M A := fun s => (Raised e, s).

(** [try: body except <catches>: handler]. *)
Definition try_except {A} (body : M A) (catches : exn -> bool) (handler : M A) : M A :=
  fun s =>
    match body s with
    | (Raised e, s') => if catches e then handler s' else (Raised e, s')
    | r => r
    end.

Definition emit (ev : event) : M unit :=
  fun s => (Normal tt,
            {| trace := trace s ++ [ev]; topics := topics s; s3config := s3config s |}).

Definition echo (m : message) : M unit := emit (Echo m).

(** An external call: recorded, then answered by the world. *)
Definition external {A} (ev : event) (r : outcome A) : M A :=
  emit ev ;;
  match r with
  | Returns a => ret a
  | Raises e => raise e
  end.

(** A pure Python expression that may raise. *)
Definition lift {A} (r : outcome A) : M A :=
  match r with
  | Returns a => ret a
  | Raises e => raise e
  end.

Definition get_topics : M (list string) := fun s => (Normal (topics s), s).
Definition set_topics (t : list string) : M unit :=
  fun s => (Normal tt, {| trace := trace s; topics := t; s3config := s3config s |}).
Definition get_s3config : M S3Config := fun s => (Normal (s3config s), s).
Definition modify_s3config (f : S3Config -> S3Config) : M unit :=
  fun s => (Normal tt, {| trace := trace s; topics := topics s; s3config := f (s3config s) |}).

(** [list(set(current_topics) - set(topics))]. *)
Definition new_topics (current_topics topics : list string) : list string :=
  elements ((list_to_set current_topics : gset string) ∖ list_to_set topics).

Definition nonempty {A} (l : list A) : bool :=
  match l with [] => false | _ :: _ => true end.

(** ** The command *)

Section Command.

(** Declared outside the file at hand: the JSON rendering of the connector
    configuration ([S3Config.asjson]), the class attribute
    [S3Config.connector_class], and the standard library's [json.loads]
    (which raises on text that is not JSON). *)
Variable asjson : S3Config -> string.
Variable connector_class : string.
Variable json_loads : string -> outcome json.

(** Lines 250-263.  The [topics] field is not a constructor argument; it is
    only ever read after [update_topics] has set it. *)
Definition S3Config_init (a : Args) : S3Config :=
  {| cfg_name := name a;
     cfg_s3_bucket_name := s3_bucket_name a;
     cfg_s3_region := s3_region a;
     cfg_topics_dir := topics_dir a;
     cfg_flush_size := flush_size a;
     cfg_rotate_interval_ms := rotate_interval_ms a;
     cfg_partition_duration_ms := partition_duration_ms a;
     cfg_tasks_max := tasks_max a;
     cfg_locale := locale a;
     cfg_timezone := timezone a;
     cfg_timestamp_extractor := timestamp_extractor a;
     cfg_timestamp_field := timestamp_field a;
     cfg_topics := EmptyString |}.

(** Lines 264-265: [config] is bound only when [ctx.parent] is there; reading
    it unbound raises. *)
Definition config_of (a : Args) : M Config :=
  match ctx_parent a with
  | Some c => ret c
  | None => raise (PyException "UnboundLocalError")
  end.

(** Lines 267-272: the explicit topic list, or discovery when it is empty. *)
Definition resolve_topics (a : Args) (w : World) : M unit :=
  topics ← get_topics;
  if nonempty topics then ret tt
  else
    echo (Text "Discoverying Kafka topics...");;
    config ← config_of a;
    topics ← external (Discover (broker_url config) (topic_regex a) (excluded_topics a))
                      (first_names w);
    set_topics topics;;
    echo (FoundTopics (if nonempty topics then length topics else 0)).

(** Lines 293-304: the [try] block and its [except Exception] handler. *)
Definition check_validation (validation : string) : M unit :=
  try_except
    (parsed ← lift (json_loads validation);
     error_count ← lift (subscript parsed "error_count");
     echo (ValidationReturned error_count);;
     positive ← lift (gt_zero error_count);
     (if positive : bool
      then echo (Text "Use the --validate option to return the validation results.")
      else ret tt);;
     return_ 0)
    is_Exception
    (echo (Text validation);;
     return_ 1).

(** Lines 274-306: the one-shot apply. *)
Definition first_apply (a : Args) (w : World) : M unit :=
  topics ← get_topics;
  if nonempty topics then
    modify_s3config (update_topics topics);;
    (if validate a then
       c ← get_s3config;
       r ← external (Validate connector_class (asjson c)) (first_validate w);
       echo (Text r);;
       return_ 0
     else ret tt);;
    (if dry_run a then
       c ← get_s3config;
       echo (Text (asjson c));;
       return_ 0
     else ret tt);;
    c ← get_s3config;
    validation ← external (Validate connector_class (asjson c)) (first_validate w);
    check_validation validation;;
    echo (Uploading (name a));;
    c ← get_s3config;
    external (CreateOrUpdate (name a) (asjson c)) (first_create_or_update w)
  else ret tt.

(** Lines 309-324: one iteration of the loop body.  [time.sleep] stands
    before the [try], so only the discovery and the update are guarded by
    [except KeyboardInterrupt]. *)
Definition tick (a : Args) (w : TickWorld) : M unit :=
  external (Sleep (check_interval a)) (sleep_result w);;
  try_except
    (config ← config_of a;
     current_topics ← external (Discover (broker_url config) (topic_regex a)
                                         (excluded_topics a))
                               (tick_names w);
     topics ← get_topics;
     if nonempty (new_topics current_topics topics) then
       echo (Text "Found new topics, updating the connector...");;
       modify_s3config (update_topics current_topics);;
       c ← get_s3config;
       external (CreateOrUpdate (name a) (asjson c)) (tick_create_or_update w);;
       set_topics current_topics
     else ret tt)
    is_KeyboardInterrupt
    (raise (ClickException "Interruped.")).

(** Line 308: [while True].  The loop has no exit of its own; a run is
    observed for as many iterations as the world lists, after which the
    command is still [Looping]. *)
Fixpoint auto_update_loop (a : Args) (ws : list TickWorld) : M unit :=
  match ws with
  | [] => fun s => (Looping, s)
  | w :: ws' => tick a w;; auto_update_loop a ws'
  end.

(** Lines 266-325. *)
Definition create_s3_sink (a : Args) (w : World) : M unit :=
  resolve_topics a w;;
  config_of a;;
  first_apply a w;;
  (if auto_update a then auto_update_loop a (ticks w) else ret tt);;
  return_ 0.

Definition initial_state (a : Args) : St :=
  {| trace := []; topics := topiclist a; s3config := S3Config_init a |}.

(** A run of the command: how it ended, and the final state with its
    trace. *)
Definition run (a : Args) (w : World) : ctl unit * St :=
  create_s3_sink a w (initial_state a).

End Command.

(** ** Predicates used to state the properties *)

Section Properties.

Variable asjson : S3Config -> string.
Variable connector_class : string.
Variable json_loads : string -> outcome json.

(** The validation text has no readable [error_count]: it is not JSON, or
    the parsed value has no such field. *)
Definition unparsable (validation : string) : bool :=
  match json_loads validation with
  | Raises e => is_Exception e
  | Returns parsed =>
      match subscript parsed "error_count" with
      | Raises _ => true
      | Returns _ => false
      end
  end.

(** The [error_count] read from the validation text, when there is one. *)
Definition error_count_of (validation : string) : option json :=
  match json_loads validation with
  | Raises _ => None
  | Returns parsed =>
      match subscript parsed "error_count" with
      | Raises _ => None
      | Returns c => Some c
      end
  end.

(** The validation text reports an [error_count] that is not above zero. *)
Definition validation_clean (validation : string) : bool :=
  match error_count_of validation with
  | Some c => match gt_zero c with Returns false => true | _ => false end
  | None => false
  end.

(** How the [error_count] of the validation text compares with 0, when the
    text has one and the comparison is defined. *)
Definition error_count_positive (validation : string) : option bool :=
  match error_count_of validation with
  | Some c => match gt_zero c with Returns b => Some b | Raises _ => None end
  | None => None
  end.

(** The first apply is a commit (neither flag set) whose validate call
    answered with a clean validation. *)
Definition commit_validated (a : Args) (w : World) : bool :=
  negb (validate a) && negb (dry_run a) &&
  match first_validate w with
  | Returns v => validation_clean v
  | Raises _ => false
  end.

(** The same, said without the code's own lookup: the text is not JSON, or
    its JSON value is not an object with an [error_count] key. *)
Definition lacks_error_count (validation : string) : Prop :=
  (exists e, json_loads validation = Raises e /\ is_Exception e = true) \/
  (exists parsed,
     json_loads validation = Returns parsed /\
     forall fields x, parsed = JObj fields -> ~ In ("error_count", x) fields).

(** The state in which the first apply starts. *)
Definition resolved (a : Args) (w : World) : St :=
  snd (resolve_topics a w (initial_state a)).

End Properties.

(** The trace after the sleep and the discovery of an iteration. *)
Definition polled (a : Args) (config : Config) (s : St) : list event :=
  trace s ++ [Sleep (check_interval a);
              Discover (broker_url config) (topic_regex a) (excluded_topics a)].

(** What leaves the [try] of the loop body when [e] is raised inside. *)
Definition leaving (e : exn) : exn :=
  if is_KeyboardInterrupt e then ClickException "Interruped." else e.

(** The exit status of the process when the command is run from the shell.
    [create_s3_sink] is a [click.command] (line 19).  Click's standalone mode
    discards the value the callback returns and exits with status 0; when an
    exception leaves the callback the process exits with status 1 (a
    ClickException after its message is shown, a KeyboardInterrupt as an
    abort, any other exception as an uncaught error).  While the loop runs
    there is no exit status yet. *)
Definition exit_status {A} (c : ctl A) : option Z :=
  match c with
  | Normal _ | Returned _ => Some 0%Z
  | Raised _ => Some 1%Z
  | Looping => None
  end.

(** The trace of [n] iterations that only sleep and discover. *)
Definition polling (a : Args) (config : Config) (n : nat) : list event :=
  concat (replicate n [Sleep (check_interval a);
                       Discover (broker_url config) (topic_regex a) (excluded_topics a)]).

Definition is_discover (ev : event) : bool :=
  match ev with Discover _ _ _ => true | _ => false end.

(** The events of [t] that [p] selects, in order. *)
Definition calls (p : event -> bool) (t : list event) : list event :=
  List.filter p t.

(** ** Sample inputs *)

Module Sample.

Definition dq : string := String (Ascii.ascii_of_nat 34) EmptyString.

(** The text [{"error_count": n}] for a digit [n]. *)
Definition error_count_text (digit : string) : string :=
  "{" +:+ dq +:+ "error_count" +:+ dq +:+ ": " +:+ digit +:+ "}".

(** [json.loads] on the two texts the examples use; any other text is taken
    not to be JSON. *)
Definition loads (text : string) : outcome json :=
  if String.eqb text (error_count_text "0")
  then Returns (JObj [("error_count", JInt 0)])
  else if String.eqb text (error_count_text "2")
  then Returns (JObj [("error_count", JInt 2)])
  else Raises (PyException "JSONDecodeError").

(** A rendering of the configuration that shows the connector and its
    topics. *)
Definition asjson (c : S3Config) : string :=
  cfg_name c +:+ ":" +:+ cfg_topics c.

Definition connector_class : string := "io.confluent.connect.s3.S3SinkConnector".

Definition config : Config :=
  {| broker_url := "localhost:9092"; connect_url := "http://localhost:8083" |}.

Definition args (topiclist : list string) (dry_run auto_update validate : bool) : Args :=
  {| ctx_parent := Some config;
     topiclist := topiclist;
     name := "s3-sink";
     s3_bucket_name := "bucket";
     s3_region := "us-east-1";
     topics_dir := "topics";
     flush_size := 1000;
     rotate_interval_ms := 600000;
     partition_duration_ms := 3600000;
     tasks_max := 1;
     topic_regex := ".*";
     dry_run := dry_run;
     auto_update := auto_update;
     validate := validate;
     check_interval := 15000;
     excluded_topics := EmptyString;
     locale := "en-US";
     timezone := "UTC";
     timestamp_extractor := "Record";
     timestamp_field := "time" |}.

Definition tick_world (names : outcome (list string)) (upsert : outcome unit) : TickWorld :=
  {| sleep_result := Returns tt; tick_names := names; tick_create_or_update := upsert |}.

Definition world (names : outcome (list string)) (validation : outcome string)
    (ticks : list TickWorld) : World :=
  {| first_names := names;
     first_validate := validation;
     first_create_or_update := Returns tt;
     ticks := ticks |}.

Definition run := run asjson connector_class loads.

(** The validation texts of the examples. *)
Definition clean : string := error_count_text "0".
Definition two_errors : string := error_count_text "2".
Definition bad_gateway : string := "<html>502 Bad Gateway</html>".

(** One-shot invocations with explicit topics. *)
Definition commit_args : Args := args ["a"] false false false.
Definition validate_args : Args := args ["a"; "b"] false false true.
Definition dry_run_args : Args := args ["a"; "b"] true false false.
Definition dry_run_validate_args : Args := args ["a"] true false true.

(** Invocations that list no topic. *)
Definition discover_args : Args := args [] false false false.
Definition watch_args : Args := args [] false true false.
Definition dry_run_watch_args : Args := args [] true true false.

(** Worlds without loop iterations: what discovery and validate answer. *)
Definition clean_world : World := world (Returns []) (Returns clean) [].
Definition two_errors_world : World := world (Returns []) (Returns two_errors) [].
Definition bad_gateway_world : World := world (Returns []) (Returns bad_gateway) [].

(** Iterations of the loop. *)
Definition quiet_tick : TickWorld := tick_world (Returns []) (Returns tt).
Definition topic_a_tick : TickWorld := tick_world (Returns ["a"]) (Returns tt).
Definition growing_tick : TickWorld := tick_world (Returns ["a"; "b"; "c"]) (Returns tt).
Definition failing_upsert_tick : TickWorld :=
  tick_world (Returns ["a"]) (Raises (PyException "HTTPError")).
Definition failing_discovery_tick : TickWorld :=
  tick_world (Raises (PyException "KafkaException")) (Returns tt).

(** Worlds in which nothing is found at first and the loop is observed. *)
Definition quiet_world : World := world (Returns []) (Returns clean) [quiet_tick].
Definition topic_a_world : World := world (Returns []) (Returns clean) [topic_a_tick].
Definition failing_upsert_world : World :=
  world (Returns []) (Returns clean) [failing_upsert_tick; topic_a_tick].
Definition failing_discovery_world : World :=
  world (Returns []) (Returns clean) [failing_discovery_tick; topic_a_tick].

(** The state at the head of the loop with [lastApplied] as the topics. *)
Definition at_loop_head (lastApplied : list string) : St :=
  {| trace := []; topics := lastApplied; s3config := S3Config_init watch_args |}.

(** A listed topic together with --auto-update. *)
Definition listed_watch_args : Args := args ["a"] false true false.

(** The command invoked without its parent group. *)
Definition orphan_args : Args :=
  {| ctx_parent := None;
     topiclist := [];
     name := "s3-sink";
     s3_bucket_name := "bucket";
     s3_region := "us-east-1";
     topics_dir := "topics";
     flush_size := 1000;
     rotate_interval_ms := 600000;
     partition_duration_ms := 3600000;
     tasks_max := 1;
     topic_regex := ".*";
     dry_run := false;
     auto_update := false;
     validate := false;
     check_interval := 15000;
     excluded_topics := EmptyString;
     locale := "en-US";
     timezone := "UTC";
     timestamp_extractor := "Record";
     timestamp_field := "time" |}.

(** A validation whose [error_count] is [null], and [json.loads] knowing
    that text besides the two above. *)
Definition null_count : string := error_count_text "null".

Definition loads_with_null (text : string) : outcome json :=
  if String.eqb text null_count
  then Returns (JObj [("error_count", JNull)])
  else loads text.

Definition null_count_world : World := world (Returns []) (Returns null_count) [].

(** The broker or the gateway cannot be reached. *)
Definition broker_down_world : World :=
  world (Raises (PyException "KafkaException")) (Returns clean) [].
Definition gateway_down_world : World :=
  world (Returns []) (Raises (PyException "ConnectionError")) [].

(** Iterations interrupted from the keyboard, and one that finds a topic
    gone. *)
Definition interrupted_sleep_tick : TickWorld :=
  {| sleep_result := Raises KeyboardInterrupt;
     tick_names := Returns ["a"];
     tick_create_or_update := Returns tt |}.
Definition interrupted_discovery_tick : TickWorld :=
  tick_world (Raises KeyboardInterrupt) (Returns tt).
Definition shrunk_tick : TickWorld := tick_world (Returns ["a"]) (Returns tt).
Definition interrupted_upload_tick : TickWorld :=
  tick_world (Returns ["a"]) (Raises KeyboardInterrupt).

End Sample.

(** * Properties *)

Example new_topics_grow : new_topics ["a"; "b"; "c"] ["a"; "b"] = ["c"].
Proof. vm_compute. reflexivity. Qed.

Example new_topics_shrink : new_topics ["a"; "c"] ["a"; "b"; "c"] = [].
Proof. vm_compute. reflexivity. Qed.


Section Facts.

Variable asjson : S3Config -> string.
Variable connector_class : string.
Variable json_loads : string -> outcome json.

Local Abbreviation first_apply := (first_apply asjson connector_class json_loads).
Local Abbreviation check_validation := (check_validation json_loads).
Local Abbreviation tick := (tick asjson).
Local Abbreviation auto_update_loop := (auto_update_loop asjson).
Local Abbreviation run := (run asjson connector_class json_loads).
Local Abbreviation unparsable := (unparsable json_loads).
Local Abbreviation commit_validated := (commit_validated json_loads).
Local Abbreviation lacks_error_count := (lacks_error_count json_loads).

(** Unfolding of the monad's operations. *)
Ltac exec :=
  cbv beta iota zeta delta
    [mbind mret M_bind M_ret bind ret return_ raise try_except emit echo
     external lift get_topics set_topics get_s3config modify_s3config] in *;
  cbn [fst snd trace topics s3config] in *.

(** *** Sets of topics *)

Lemma new_topics_nil_iff (current lastApplied : list string) :
  new_topics current lastApplied = [] <->
  (list_to_set current : gset string) ∖ list_to_set lastApplied = ∅.
Proof.
  unfold new_topics. split.
  - intros H. apply elements_empty_inv in H. by apply leibniz_equiv.
  - intros ->. apply elements_empty.
Qed.

Lemma new_topics_nil_subset (current lastApplied : list string) :
  new_topics current lastApplied = [] <->
  (forall t, t ∈ current -> t ∈ lastApplied).
Proof using Type.
  rewrite new_topics_nil_iff. split.
  - intros H t Ht. destruct (decide (t ∈ lastApplied)) as [|Hn]; [done|].
    assert (t ∈ (list_to_set current : gset string) ∖ list_to_set lastApplied)
      as Hin.
    { apply elem_of_difference. rewrite !elem_of_list_to_set. by split. }
    rewrite H in Hin. by apply not_elem_of_empty in Hin.
  - intros H. apply leibniz_equiv. intros t.
    rewrite elem_of_difference, !elem_of_list_to_set. split.
    + intros [Hc Hn]. destruct Hn. by apply H.
    + intros Hin. by apply not_elem_of_empty in Hin.
Qed.

Lemma nonempty_false {A} (l : list A) : nonempty l = false <-> l = [].
Proof. destruct l; simpl; split; congruence. Qed.

Lemma nonempty_true {A} (l : list A) : nonempty l = true <-> l <> [].
Proof. destruct l; simpl; split; congruence. Qed.

Lemma calls_app (p : event -> bool) (t u : list event) :
  calls p (t ++ u) = calls p t ++ calls p u.
Proof. apply List.filter_app. Qed.

(** *** Topic resolution *)

(** Resolution prints and discovers; it never reaches the gateway and never
    sleeps. *)
Lemma resolve_topics_calls (p : event -> bool) (a : Args) (w : World) (s : St) :
  (forall m, p (Echo m) = false) ->
  (forall b r x, p (Discover b r x) = false) ->
  calls p (trace (snd (resolve_topics a w s))) = calls p (trace s).
Proof.
  intros Hecho Hdisc. unfold resolve_topics, config_of. exec.
  destruct (nonempty (topics s)); [reflexivity|].
  destruct (ctx_parent a) as [config|]; exec.
  - destruct (first_names w) as [found|e]; exec;
      rewrite ?calls_app; simpl; rewrite ?Hecho, ?Hdisc, ?app_nil_r; reflexivity.
  - rewrite calls_app. simpl. rewrite Hecho, app_nil_r. reflexivity.
Qed.

Lemma resolved_no_gateway_call (a : Args) (w : World) :
  calls is_gateway_call (trace (resolved a w)) = [].
Proof. unfold resolved. rewrite resolve_topics_calls; reflexivity. Qed.

Lemma resolved_no_sleep (a : Args) (w : World) :
  calls is_sleep (trace (resolved a w)) = [].
Proof. unfold resolved. rewrite resolve_topics_calls; reflexivity. Qed.

(** When resolution ends normally the topics are the explicit list, or the
    discovered one when the list was empty. *)
Lemma resolve_topics_normal (a : Args) (w : World) (s1 : St) :
  resolve_topics a w (initial_state a) = (Normal tt, s1) ->
  s1 = resolved a w /\ s3config s1 = S3Config_init a.
Proof.
  intros H. unfold resolved. rewrite H. split; [reflexivity|].
  revert H. unfold resolve_topics, config_of, initial_state. exec.
  destruct (nonempty (topiclist a)).
  - intros [= <-]. reflexivity.
  - destruct (ctx_parent a); exec; [|discriminate].
    destruct (first_names w); exec; [|discriminate].
    intros [= <-]. reflexivity.
Qed.

(** Nothing listed and nothing discovered: resolution ends with an empty
    topic set after reporting it. *)
Lemma resolve_topics_finds_nothing (a : Args) (w : World) (config : Config) :
  ctx_parent a = Some config ->
  topiclist a = [] ->
  first_names w = Returns [] ->
  resolve_topics a w (initial_state a) =
    (Normal tt,
     {| trace := [Echo (Text "Discoverying Kafka topics...");
                  Discover (broker_url config) (topic_regex a) (excluded_topics a);
                  Echo (FoundTopics 0)];
        topics := [];
        s3config := S3Config_init a |}).
Proof.
  intros Hc Hl Hn. unfold resolve_topics, config_of, initial_state. exec.
  rewrite Hl, Hc. exec. rewrite Hn. reflexivity.
Qed.

(** The command after topic resolution. *)
Lemma run_after_resolve (a : Args) (w : World) (config : Config) (s1 : St) :
  ctx_parent a = Some config ->
  resolve_topics a w (initial_state a) = (Normal tt, s1) ->
  run a w =
    (first_apply a w;;
     (if auto_update a then auto_update_loop a (ticks w) else ret tt);;
     return_ 0) s1.
Proof.
  intros Hc Hr. unfold run, create_s3_sink. exec. rewrite Hr.
  unfold config_of. rewrite Hc. reflexivity.
Qed.

(** *** The validation check *)

(** The [try] block never falls through: it returns or lets an exception
    out. *)
Lemma check_validation_not_normal (validation : string) (s : St) (u : unit) :
  fst (check_validation validation s) <> Normal u.
Proof.
  unfold check_validation. exec.
  destruct (json_loads validation) as [parsed|e]; exec.
  - destruct (subscript parsed "error_count") as [c|e]; exec.
    + destruct (gt_zero c) as [[|]|e]; exec; try discriminate.
      destruct (is_Exception e); exec; discriminate.
    + destruct (is_Exception e); exec; discriminate.
  - destruct (is_Exception e); exec; discriminate.
Qed.

(** It only prints. *)
Lemma check_validation_calls (p : event -> bool) (validation : string) (s : St) :
  (forall m, p (Echo m) = false) ->
  calls p (trace (snd (check_validation validation s))) = calls p (trace s).
Proof.
  intros Hecho. unfold check_validation. exec.
  destruct (json_loads validation) as [parsed|e]; exec.
  - destruct (subscript parsed "error_count") as [c|e]; exec.
    + destruct (gt_zero c) as [[|]|e]; exec;
        [| |destruct (is_Exception e); exec];
        rewrite ?calls_app; simpl; rewrite ?Hecho, ?app_nil_r; reflexivity.
    + destruct (is_Exception e); exec;
        rewrite ?calls_app; simpl; rewrite ?Hecho, ?app_nil_r; reflexivity.
  - destruct (is_Exception e); exec;
      rewrite ?calls_app; simpl; rewrite ?Hecho, ?app_nil_r; reflexivity.
Qed.

(** An unreadable validation is printed raw and the command returns 1. *)
Lemma check_validation_unparsable (validation : string) (s : St) :
  unparsable validation = true ->
  check_validation validation s =
    (Returned 1,
     {| trace := trace s ++ [Echo (Text validation)];
        topics := topics s; s3config := s3config s |}).
Proof.
  unfold unparsable, check_validation. exec.
  destruct (json_loads validation) as [parsed|e]; exec.
  - destruct (subscript parsed "error_count") as [c|e] eqn:Hsub; [discriminate|].
    intros _. assert (is_Exception e = true) as ->; [|reflexivity].
    unfold subscript in Hsub. destruct parsed; try (injection Hsub as <-; reflexivity).
    destruct (dict_get "error_count" fields); [discriminate|].
    injection Hsub as <-. reflexivity.
  - intros ->. reflexivity.
Qed.

(** *** The one-shot apply *)

(** With no topic the apply does nothing at all. *)
Lemma first_apply_no_topics (a : Args) (w : World) (s : St) :
  topics s = [] -> first_apply a w s = (Normal tt, s).
Proof.
  intros H. unfold first_apply. exec. rewrite H. reflexivity.
Qed.

(** The apply adds nothing to the trace but prints and [validate] calls.
    In particular it never reaches [create_or_update]: every path through the
    validation check leaves the function before line 305. *)
Lemma first_apply_calls (p : event -> bool) (a : Args) (w : World) (s : St) :
  (forall m, p (Echo m) = false) ->
  (forall c j, p (Validate c j) = false) ->
  calls p (trace (snd (first_apply a w s))) = calls p (trace s).
Proof.
  intros Hecho Hval.
  assert (forall t evs, Forall (fun ev => p ev = false) evs ->
            calls p (t ++ evs) = calls p t) as Hskip.
  { intros t evs Hall. rewrite calls_app.
    induction Hall as [|ev evs Hev _ IH]; simpl; [apply app_nil_r|].
    rewrite Hev. exact IH. }
  unfold first_apply. exec.
  destruct (nonempty (topics s)); [|reflexivity]. exec.
  destruct (validate a); exec.
  { destruct (first_validate w); exec; rewrite <- ?app_assoc; simpl;
      apply Hskip; repeat constructor; auto. }
  destruct (dry_run a); exec.
  { apply Hskip; repeat constructor; auto. }
  destruct (first_validate w) as [validation|e]; exec.
  - match goal with |- context [check_validation validation ?s0] =>
      pose proof (check_validation_not_normal validation s0) as Hn;
      pose proof (check_validation_calls p validation s0 Hecho) as Hc;
      destruct (check_validation validation s0) as [[[]| | |] s2]
    end; cbn [fst snd trace] in *;
      try (rewrite Hc; apply Hskip; repeat constructor; auto).
    exfalso. apply (Hn tt). reflexivity.
  - apply Hskip; repeat constructor; auto.
Qed.

Lemma first_apply_never_uploads (a : Args) (w : World) (s : St) :
  calls is_create_or_update (trace (snd (first_apply a w s))) =
  calls is_create_or_update (trace s).
Proof. apply first_apply_calls; reflexivity. Qed.

(** With a topic to export the apply never falls through to line 307: it
    returns or raises. *)
Lemma first_apply_not_normal (a : Args) (w : World) (s : St) (u : unit) :
  topics s <> [] -> fst (first_apply a w s) <> Normal u.
Proof.
  intros Hne. apply nonempty_true in Hne.
  unfold first_apply. exec. rewrite Hne. exec.
  destruct (validate a); exec.
  { destruct (first_validate w); exec; discriminate. }
  destruct (dry_run a); exec; [discriminate|].
  destruct (first_validate w) as [validation|e]; exec; [|discriminate].
  match goal with |- context [check_validation validation ?s0] =>
    pose proof (check_validation_not_normal validation s0) as Hn;
    destruct (check_validation validation s0) as [[[]| | |] s2]
  end; cbn [fst] in *; try discriminate.
  exfalso. apply (Hn tt). reflexivity.
Qed.

(** *** Empty topic set *)

(** C8.  When neither the argument list nor discovery gives a topic, the
    command reports "Found 0 topics.", the apply leaves the state as it is
    (no validate, no create_or_update), and without --auto-update the command
    returns 0 with exactly the three resolution events in its trace. *)
Theorem empty_topic_set_no_gateway_call (a : Args) (w : World) (config : Config) :
  ctx_parent a = Some config ->
  topiclist a = [] ->
  first_names w = Returns [] ->
  let s1 :=
    {| trace := [Echo (Text "Discoverying Kafka topics...");
                 Discover (broker_url config) (topic_regex a) (excluded_topics a);
                 Echo (FoundTopics 0)];
       topics := [];
       s3config := S3Config_init a |} in
  resolve_topics a w (initial_state a) = (Normal tt, s1) /\
  first_apply a w s1 = (Normal tt, s1) /\
  calls is_gateway_call (trace s1) = [] /\
  (auto_update a = false -> run a w = (Returned 0, s1)).
Proof.
  intros Hc Hl Hn s1.
  pose proof (resolve_topics_finds_nothing a w config Hc Hl Hn) as Hr.
  split; [exact Hr|].
  split; [apply first_apply_no_topics; reflexivity|].
  split; [reflexivity|].
  intros Hau. rewrite (run_after_resolve a w config s1 Hc Hr). exec.
  rewrite first_apply_no_topics by reflexivity. rewrite Hau. reflexivity.
Qed.

(** *** Validate mode *)

(** C9.  With a non-empty topic set and --validate, the only gateway call of
    the whole run is one [validate] of the configuration built from the
    topics; [create_or_update] is never called; when the call answers, its
    raw text is printed and the command returns 0. *)
Theorem validate_mode_validates_once (a : Args) (w : World) (config : Config) (s1 : St) :
  ctx_parent a = Some config ->
  resolve_topics a w (initial_state a) = (Normal tt, s1) ->
  topics s1 <> [] ->
  validate a = true ->
  let request :=
    Validate connector_class (asjson (update_topics (topics s1) (s3config s1))) in
  calls is_gateway_call (trace (snd (run a w))) = [request] /\
  calls is_create_or_update (trace (snd (run a w))) = [] /\
  (forall r, first_validate w = Returns r ->
     fst (run a w) = Returned 0 /\
     trace (snd (run a w)) = trace s1 ++ [request; Echo (Text r)]).
Proof.
  intros Hc Hr Hne Hv request.
  pose proof (resolve_topics_normal a w s1 Hr) as [Hs1 _].
  pose proof (resolved_no_gateway_call a w) as Hg. rewrite <- Hs1 in Hg.
  assert (calls is_create_or_update (trace s1) = []) as Hu.
  { rewrite Hs1. unfold resolved. rewrite resolve_topics_calls; reflexivity. }
  rewrite (run_after_resolve a w config s1 Hc Hr).
  apply nonempty_true in Hne.
  unfold first_apply. exec. rewrite Hne. exec. rewrite Hv. exec.
  destruct (first_validate w) as [r0|e]; exec.
  - rewrite <- !app_assoc, !calls_app, Hg, Hu. simpl.
    split; [reflexivity|]. split; [reflexivity|].
    intros r [= ->]. split; reflexivity.
  - rewrite !calls_app, Hg, Hu. simpl.
    split; [reflexivity|]. split; [reflexivity|]. intros r [=].
Qed.

(** *** Dry-run mode *)

(** C7, as amended.  With a non-empty topic set, --dry-run and no
    --validate, the command prints the built configuration, returns 0 and
    calls no gateway method. *)
Theorem dry_run_prints_config (a : Args) (w : World) (config : Config) (s1 : St) :
  ctx_parent a = Some config ->
  resolve_topics a w (initial_state a) = (Normal tt, s1) ->
  topics s1 <> [] ->
  dry_run a = true ->
  validate a = false ->
  let built := update_topics (topics s1) (s3config s1) in
  run a w =
    (Returned 0,
     {| trace := trace s1 ++ [Echo (Text (asjson built))];
        topics := topics s1; s3config := built |}) /\
  calls is_gateway_call (trace (snd (run a w))) = [].
Proof.
  intros Hc Hr Hne Hd Hv built.
  pose proof (resolve_topics_normal a w s1 Hr) as [Hs1 _].
  pose proof (resolved_no_gateway_call a w) as Hg. rewrite <- Hs1 in Hg.
  rewrite (run_after_resolve a w config s1 Hc Hr).
  apply nonempty_true in Hne.
  unfold first_apply. exec. rewrite Hne. exec. rewrite Hv. exec. rewrite Hd. exec.
  split; [reflexivity|]. rewrite calls_app, Hg. reflexivity.
Qed.

(** *** Commit mode *)

(** Whatever the validation says, a run that has topics to export ends
    without a [create_or_update] call. *)
Lemma apply_never_uploads (a : Args) (w : World) (config : Config) (s1 : St) :
  ctx_parent a = Some config ->
  resolve_topics a w (initial_state a) = (Normal tt, s1) ->
  topics s1 <> [] ->
  calls is_create_or_update (trace (snd (run a w))) = [].
Proof.
  intros Hc Hr Hne.
  pose proof (resolve_topics_normal a w s1 Hr) as [Hs1 _].
  assert (calls is_create_or_update (trace s1) = []) as Hu.
  { rewrite Hs1. unfold resolved. rewrite resolve_topics_calls; reflexivity. }
  rewrite (run_after_resolve a w config s1 Hc Hr). exec.
  pose proof (first_apply_not_normal a w s1 tt Hne) as Hn.
  pose proof (first_apply_never_uploads a w s1) as Hcalls.
  destruct (first_apply a w s1) as [[[]| | |] s2]; cbn [fst snd] in *;
    try (rewrite Hcalls; exact Hu).
  exfalso. apply Hn. reflexivity.
Qed.

(** In commit mode (non-empty topic set, neither flag), when the text
    answered by [validate] has no readable [error_count], the function prints
    that raw text, executes [return 1], and never calls [create_or_update]. *)
Lemma commit_unparsable_validation (a : Args) (w : World) (config : Config)
    (s1 : St) (validation : string) :
  ctx_parent a = Some config ->
  resolve_topics a w (initial_state a) = (Normal tt, s1) ->
  topics s1 <> [] ->
  validate a = false ->
  dry_run a = false ->
  first_validate w = Returns validation ->
  unparsable validation = true ->
  let built := update_topics (topics s1) (s3config s1) in
  fst (run a w) = Returned 1 /\
  trace (snd (run a w)) =
    trace s1 ++ [Validate connector_class (asjson built); Echo (Text validation)] /\
  calls is_create_or_update (trace (snd (run a w))) = [].
Proof.
  intros Hc Hr Hne Hv Hd Hval Hun built.
  pose proof (resolve_topics_normal a w s1 Hr) as [Hs1 _].
  assert (calls is_create_or_update (trace s1) = []) as Hu.
  { rewrite Hs1. unfold resolved. rewrite resolve_topics_calls; reflexivity. }
  rewrite (run_after_resolve a w config s1 Hc Hr).
  apply nonempty_true in Hne.
  unfold first_apply. exec. rewrite Hne. exec. rewrite Hv. exec. rewrite Hd. exec.
  rewrite Hval. exec.
  rewrite (check_validation_unparsable validation _ Hun). exec.
  rewrite <- !app_assoc. simpl.
  repeat split; try reflexivity.
  rewrite calls_app, Hu. reflexivity.
Qed.

(** A key is missing from a dict exactly when no pair of the dict carries
    it. *)
Lemma dict_get_None_iff (key : string) (fields : list (string * json)) :
  dict_get key fields = None <-> forall x, ~ In (key, x) fields.
Proof.
  induction fields as [|[k v] rest IH]; simpl.
  - split; [intros _ x []|reflexivity].
  - destruct (String.eqb k key) eqn:Hk.
    + apply String.eqb_eq in Hk. subst k. split; [discriminate|].
      intros H. exfalso. apply (H v). left. reflexivity.
    + apply String.eqb_neq in Hk. rewrite IH. split.
      * intros H x [Heq|Hin]; [congruence|exact (H x Hin)].
      * intros H x Hin. apply (H x). right. exact Hin.
Qed.

(** The code's lookup fails exactly on the texts that lack an
    [error_count]. *)
Lemma unparsable_iff (validation : string) :
  unparsable validation = true <-> lacks_error_count validation.
Proof.
  unfold unparsable, lacks_error_count.
  destruct (json_loads validation) as [parsed|e].
  - unfold subscript. split.
    + intros Hun. right. exists parsed. split; [reflexivity|].
      intros fields x -> Hin.
      destruct (dict_get "error_count" fields) eqn:Hget; [discriminate|].
      exact (proj1 (dict_get_None_iff _ _) Hget x Hin).
    + intros [(e & He & _)|(parsed' & Hp & Hno)]; [discriminate|].
      injection Hp as <-.
      destruct parsed; try reflexivity.
      destruct (dict_get "error_count" fields) as [x|] eqn:Hget; [|reflexivity].
      exfalso.
      assert (dict_get "error_count" fields <> None) as Hsome by congruence.
      apply Hsome, (proj2 (dict_get_None_iff _ _)).
      intros y. exact (Hno fields y eq_refl).
  - split.
    + intros He. left. exists e. split; [reflexivity|exact He].
    + intros [(e' & He & Hex)|(parsed & Hp & _)]; [|discriminate].
      injection He as <-. exact Hex.
Qed.

(** C6.  In commit mode (non-empty topic set, neither flag), when the text
    answered by [validate] is not JSON or has no [error_count] field, the
    function prints that raw text, makes no [create_or_update] call and
    executes [return 1]; but the value a click command returns is discarded,
    so the process exits with status 0, not with a failing status. *)
Theorem commit_unparsable_exit_status (a : Args) (w : World) (config : Config)
    (s1 : St) (validation : string) :
  ctx_parent a = Some config ->
  resolve_topics a w (initial_state a) = (Normal tt, s1) ->
  topics s1 <> [] ->
  validate a = false ->
  dry_run a = false ->
  first_validate w = Returns validation ->
  lacks_error_count validation ->
  let built := update_topics (topics s1) (s3config s1) in
  fst (run a w) = Returned 1 /\
  exit_status (fst (run a w)) = Some 0%Z /\
  trace (snd (run a w)) =
    trace s1 ++ [Validate connector_class (asjson built); Echo (Text validation)] /\
  calls is_create_or_update (trace (snd (run a w))) = [].
Proof.
  intros Hc Hr Hne Hv Hd Hval Hlack built.
  apply unparsable_iff in Hlack.
  destruct (commit_unparsable_validation a w config s1 validation
              Hc Hr Hne Hv Hd Hval Hlack) as (Hret & Htrace & Hup).
  split; [exact Hret|]. split; [rewrite Hret; reflexivity|].
  split; [exact Htrace|exact Hup].
Qed.

(** *** One iteration of the loop *)

Lemma tick_quiet (a : Args) (w : TickWorld) (s : St) (config : Config)
    (current : list string) :
  ctx_parent a = Some config ->
  sleep_result w = Returns tt ->
  tick_names w = Returns current ->
  new_topics current (topics s) = [] ->
  tick a w s =
    (Normal tt,
     {| trace := polled a config s; topics := topics s; s3config := s3config s |}).
Proof.
  intros Hc Hs Hn Hd. unfold tick, config_of, polled. exec.
  rewrite Hs, Hc. exec. rewrite Hn. exec. rewrite Hd. simpl.
  rewrite <- app_assoc. reflexivity.
Qed.

Lemma tick_update (a : Args) (w : TickWorld) (s : St) (config : Config)
    (current : list string) :
  ctx_parent a = Some config ->
  sleep_result w = Returns tt ->
  tick_names w = Returns current ->
  new_topics current (topics s) <> [] ->
  tick a w s =
    (match tick_create_or_update w with
     | Returns _ => Normal tt
     | Raises e => Raised (leaving e)
     end,
     {| trace := polled a config s ++
                 [Echo (Text "Found new topics, updating the connector...");
                  CreateOrUpdate (name a) (asjson (update_topics current (s3config s)))];
        topics := match tick_create_or_update w with
                  | Returns _ => current
                  | Raises _ => topics s
                  end;
        s3config := update_topics current (s3config s) |}).
Proof.
  intros Hc Hs Hn Hd. apply nonempty_true in Hd.
  unfold tick, config_of, polled, leaving. exec.
  rewrite Hs, Hc. exec. rewrite Hn. exec. rewrite Hd. exec.
  destruct (tick_create_or_update w) as [[]|e]; exec.
  - rewrite <- !app_assoc. reflexivity.
  - destruct (is_KeyboardInterrupt e); exec; rewrite <- !app_assoc; reflexivity.
Qed.

Lemma tick_discovery_raises (a : Args) (w : TickWorld) (s : St) (config : Config)
    (e : exn) :
  ctx_parent a = Some config ->
  sleep_result w = Returns tt ->
  tick_names w = Raises e ->
  tick a w s =
    (Raised (leaving e),
     {| trace := polled a config s; topics := topics s; s3config := s3config s |}).
Proof.
  intros Hc Hs Hn. unfold tick, config_of, polled, leaving. exec.
  rewrite Hs, Hc. exec. rewrite Hn. exec.
  destruct (is_KeyboardInterrupt e); exec; rewrite <- !app_assoc; reflexivity.
Qed.

(** An iteration starts by sleeping, whatever follows. *)
Lemma tick_sleeps (a : Args) (w : TickWorld) (s : St) :
  exists evs,
    trace (snd (tick a w s)) = trace s ++ Sleep (check_interval a) :: evs.
Proof.
  unfold tick, config_of. exec.
  destruct (sleep_result w) as [[]|e]; exec; [|exists []; reflexivity].
  destruct (ctx_parent a) as [config|]; exec; [|exists []; reflexivity].
  destruct (tick_names w) as [current|e]; exec.
  - destruct (nonempty (new_topics current (topics s))); exec.
    + destruct (tick_create_or_update w) as [[]|e]; exec;
        [|destruct (is_KeyboardInterrupt e); exec];
        rewrite <- !app_assoc; simpl; eexists; reflexivity.
    + rewrite <- !app_assoc; simpl; eexists; reflexivity.
  - destruct (is_KeyboardInterrupt e); exec;
      rewrite <- !app_assoc; simpl; eexists; reflexivity.
Qed.

(** An iteration never calls [validate]. *)
Lemma tick_never_validates (a : Args) (w : TickWorld) (s : St) :
  calls is_validate (trace (snd (tick a w s))) = calls is_validate (trace s).
Proof.
  unfold tick, config_of. exec.
  destruct (sleep_result w) as [[]|e]; exec;
    [|rewrite calls_app; simpl; apply app_nil_r].
  destruct (ctx_parent a) as [config|]; exec;
    [|simpl; rewrite calls_app; simpl; apply app_nil_r].
  destruct (tick_names w) as [current|e]; exec.
  - destruct (nonempty (new_topics current (topics s))); exec.
    + destruct (tick_create_or_update w) as [[]|e]; exec;
        [|destruct (is_KeyboardInterrupt e); exec];
        rewrite !calls_app; simpl; rewrite !app_nil_r; reflexivity.
    + rewrite !calls_app; simpl; rewrite !app_nil_r; reflexivity.
  - destruct (is_KeyboardInterrupt e); exec;
      rewrite !calls_app; simpl; rewrite !app_nil_r; reflexivity.
Qed.

(** C3.  One iteration with discovered set [current] and last applied set
    [topics s].  If [current - topics s] is empty the iteration makes no
    [create_or_update] call and leaves the state as it was, apart from the
    sleep and the discovery in the trace.  Otherwise it makes exactly one
    [create_or_update], carrying the configuration rebuilt with all of
    [current], and when that call succeeds [topics] becomes [current]. *)
Theorem tick_diff_law (a : Args) (w : TickWorld) (s : St) (config : Config)
    (current : list string) :
  ctx_parent a = Some config ->
  sleep_result w = Returns tt ->
  tick_names w = Returns current ->
  let delta : gset string := list_to_set current ∖ list_to_set (topics s) in
  let upsert :=
    CreateOrUpdate (name a) (asjson (update_topics current (s3config s))) in
  (delta = ∅ ->
     tick a w s =
       (Normal tt,
        {| trace := polled a config s; topics := topics s; s3config := s3config s |}) /\
     calls is_create_or_update (trace (snd (tick a w s))) =
       calls is_create_or_update (trace s)) /\
  (delta <> ∅ ->
     trace (snd (tick a w s)) =
       polled a config s ++
       [Echo (Text "Found new topics, updating the connector..."); upsert] /\
     calls is_create_or_update (trace (snd (tick a w s))) =
       calls is_create_or_update (trace s) ++ [upsert] /\
     (tick_create_or_update w = Returns tt ->
        fst (tick a w s) = Normal tt /\ topics (snd (tick a w s)) = current)).
Proof.
  intros Hc Hs Hn delta upsert. subst delta upsert. split.
  - intros Hd. apply new_topics_nil_iff in Hd.
    rewrite (tick_quiet a w s config current Hc Hs Hn Hd).
    split; [reflexivity|]. simpl. unfold polled. rewrite calls_app. simpl.
    apply app_nil_r.
  - intros Hd. rewrite <- new_topics_nil_iff in Hd.
    rewrite (tick_update a w s config current Hc Hs Hn Hd). simpl.
    split; [reflexivity|]. split.
    + unfold polled. rewrite !calls_app. simpl. rewrite app_nil_r. reflexivity.
    + intros ->. split; reflexivity.
Qed.

(** *** The loop *)

(** C10.  However long the loop runs and whatever the world answers, it adds
    no [validate] call to the trace: its [create_or_update] calls are made
    unvalidated. *)
Theorem auto_update_loop_never_validates (a : Args) (ws : list TickWorld) (s : St) :
  calls is_validate (trace (snd (auto_update_loop a ws s))) =
  calls is_validate (trace s).
Proof.
  revert s. induction ws as [|w ws IH]; intros s; [reflexivity|].
  simpl. exec.
  pose proof (tick_never_validates a w s) as Ht.
  destruct (tick a w s) as [[[]| | |] s2]; cbn [fst snd] in *; try exact Ht.
  rewrite IH. exact Ht.
Qed.

(** The loop only ever appends to the trace. *)
Lemma auto_update_loop_extends (a : Args) (ws : list TickWorld) (s : St) :
  exists evs, trace (snd (auto_update_loop a ws s)) = trace s ++ evs.
Proof.
  revert s. induction ws as [|w ws IH]; intros s.
  - exists []. simpl. symmetry. apply app_nil_r.
  - simpl. exec. destruct (tick_sleeps a w s) as [evs Ht].
    destruct (tick a w s) as [[[]| | |] s2]; cbn [fst snd] in *;
      try (eexists; exact Ht).
    destruct (IH s2) as [evs' Hl]. rewrite Hl, Ht, <- app_assoc.
    eexists. reflexivity.
Qed.

(** Once entered, the loop sleeps before anything else. *)
Lemma auto_update_loop_sleeps (a : Args) (w : TickWorld) (ws : list TickWorld) (s : St) :
  exists evs,
    trace (snd (auto_update_loop a (w :: ws) s)) =
    trace s ++ Sleep (check_interval a) :: evs.
Proof.
  simpl. exec. destruct (tick_sleeps a w s) as [evs Ht].
  destruct (tick a w s) as [[[]| | |] s2]; cbn [fst snd] in *;
    try (eexists; exact Ht).
  destruct (auto_update_loop_extends a ws s2) as [evs' Hl].
  rewrite Hl, Ht, <- app_assoc. eexists. reflexivity.
Qed.

(** C4, as amended.  When [create_or_update] raises inside an iteration,
    [topics] keeps its value, but the exception leaves the loop ([except]
    only turns KeyboardInterrupt into a ClickException): the run ends there,
    whatever further answers the world holds, so nothing is retried. *)
Theorem upsert_failure_leaves_loop (a : Args) (w : TickWorld) (ws : list TickWorld)
    (s : St) (config : Config) (current : list string) (e : exn) :
  ctx_parent a = Some config ->
  sleep_result w = Returns tt ->
  tick_names w = Returns current ->
  (list_to_set current : gset string) ∖ list_to_set (topics s) <> ∅ ->
  tick_create_or_update w = Raises e ->
  auto_update_loop a (w :: ws) s =
    (Raised (leaving e),
     {| trace := polled a config s ++
                 [Echo (Text "Found new topics, updating the connector...");
                  CreateOrUpdate (name a) (asjson (update_topics current (s3config s)))];
        topics := topics s;
        s3config := update_topics current (s3config s) |}).
Proof.
  intros Hc Hs Hn Hd He. rewrite <- new_topics_nil_iff in Hd.
  simpl. exec. rewrite (tick_update a w s config current Hc Hs Hn Hd), He.
  reflexivity.
Qed.

(** C5, as amended.  When discovery raises inside an iteration, no
    [create_or_update] is made and [topics] keeps its value, but the
    exception leaves the loop: the run ends there, whatever further answers
    the world holds, and no later iteration takes place. *)
Theorem discovery_failure_leaves_loop (a : Args) (w : TickWorld) (ws : list TickWorld)
    (s : St) (config : Config) (e : exn) :
  ctx_parent a = Some config ->
  sleep_result w = Returns tt ->
  tick_names w = Raises e ->
  auto_update_loop a (w :: ws) s =
    (Raised (leaving e),
     {| trace := polled a config s; topics := topics s; s3config := s3config s |}).
Proof.
  intros Hc Hs Hn. simpl. exec.
  rewrite (tick_discovery_raises a w s config e Hc Hs Hn). reflexivity.
Qed.

(** *** Entering the loop *)

(** In this code a sleep in the trace means the flag was set and the apply
    was skipped. *)
Lemma run_sleeps_only_if (a : Args) (w : World) :
  calls is_sleep (trace (snd (run a w))) <> [] ->
  auto_update a = true /\ topics (resolved a w) = [].
Proof.
  pose proof (resolved_no_sleep a w) as Hq. revert Hq.
  unfold run, create_s3_sink, resolved. exec.
  destruct (resolve_topics a w (initial_state a)) as [[[]| | |] s1];
    cbn [fst snd]; intros Hq Hs; try contradiction.
  unfold config_of in Hs.
  destruct (ctx_parent a) as [config|]; exec; [|contradiction].
  destruct (topics s1) as [|t ts] eqn:Ht.
  - rewrite first_apply_no_topics in Hs by exact Ht.
    destruct (auto_update a); [split; reflexivity|]. exec. contradiction.
  - exfalso. apply Hs.
    pose proof (first_apply_not_normal a w s1 tt) as Hn.
    pose proof (first_apply_calls is_sleep a w s1 (fun _ => eq_refl)
                  (fun _ _ => eq_refl)) as Hcalls.
    destruct (first_apply a w s1) as [[[]| | |] s2]; cbn [fst snd] in *;
      try (rewrite Hcalls; exact Hq).
    exfalso. apply Hn; [rewrite Ht; discriminate|reflexivity].
Qed.

(** C2, as amended.  The loop body runs only when --auto-update is set and
    the first apply did not fail: it was skipped for want of topics, or it
    was a commit whose validation came back clean.  And when it was skipped,
    the flag is set and the world goes on, the loop body does run. *)
Theorem loop_entry (a : Args) (w : World) (config : Config) :
  ctx_parent a = Some config ->
  (calls is_sleep (trace (snd (run a w))) <> [] ->
     auto_update a = true /\
     (topics (resolved a w) = [] \/ commit_validated a w = true)) /\
  (topiclist a = [] ->
   first_names w = Returns [] ->
   auto_update a = true ->
   ticks w <> [] ->
   calls is_sleep (trace (snd (run a w))) <> []).
Proof.
  intros Hc. split.
  - intros Hs. destruct (run_sleeps_only_if a w Hs) as [Hau Hskip].
    split; [exact Hau|]. left. exact Hskip.
  - intros Hl Hn Hau Hw.
    pose proof (resolve_topics_finds_nothing a w config Hc Hl Hn) as Hr.
    rewrite (run_after_resolve a w config _ Hc Hr). exec.
    rewrite first_apply_no_topics by reflexivity. rewrite Hau.
    destruct (ticks w) as [|tw tws]; [contradiction|].
    destruct (auto_update_loop_sleeps a tw tws
                {| trace := [Echo (Text "Discoverying Kafka topics...");
                             Discover (broker_url config) (topic_regex a)
                                      (excluded_topics a);
                             Echo (FoundTopics 0)];
                   topics := []; s3config := S3Config_init a |}) as [evs He].
    destruct (auto_update_loop a (tw :: tws) _) as [[[]| | |] s2];
      cbn [fst snd trace] in *; rewrite He; simpl; discriminate.
Qed.

(** *** How an iteration and the loop can end *)

(** An iteration falls through or raises; it has no [return]. *)
Lemma tick_result (a : Args) (w : TickWorld) (s : St) :
  fst (tick a w s) = Normal tt \/ exists e, fst (tick a w s) = Raised e.
Proof.
  unfold tick, config_of. exec.
  destruct (sleep_result w) as [[]|e]; exec; [|right; eexists; reflexivity].
  destruct (ctx_parent a) as [config|]; exec; [|right; eexists; reflexivity].
  destruct (tick_names w) as [current|e]; exec.
  - destruct (nonempty (new_topics current (topics s))); exec;
      [|left; reflexivity].
    destruct (tick_create_or_update w) as [[]|e]; exec; [left; reflexivity|].
    destruct (is_KeyboardInterrupt e); exec; right; eexists; reflexivity.
  - destruct (is_KeyboardInterrupt e); exec; right; eexists; reflexivity.
Qed.

(** The loop is still running when the observation ends, or an exception
    has left it. *)
Lemma auto_update_loop_result (a : Args) (ws : list TickWorld) (s : St) :
  fst (auto_update_loop a ws s) = Looping \/
  exists e, fst (auto_update_loop a ws s) = Raised e.
Proof.
  revert s. induction ws as [|w ws IH]; intros s; [left; reflexivity|].
  simpl. exec. destruct (tick_result a w s) as [Ht|[e Ht]];
    destruct (tick a w s) as [[[]| | |] s2]; cbn [fst snd] in *;
    try discriminate.
  - apply IH.
  - right. exists e. exact Ht.
Qed.

(** *** Further behaviour of the one-shot part *)

(** Resolution falls through or raises; it has no [return]. *)
Lemma resolve_topics_result (a : Args) (w : World) (s : St) :
  fst (resolve_topics a w s) = Normal tt \/
  exists e, fst (resolve_topics a w s) = Raised e.
Proof.
  unfold resolve_topics, config_of. exec.
  destruct (nonempty (topics s)); [left; reflexivity|].
  destruct (ctx_parent a); exec; [|right; eexists; reflexivity].
  destruct (first_names w); exec; [left; reflexivity|right; eexists; reflexivity].
Qed.

(** X1.  With topics on the command line Kafka is never queried: not by the
    resolution, and not later either, because the apply never falls through
    to the loop. *)
Theorem explicit_topics_never_discover (a : Args) (w : World) :
  topiclist a <> [] ->
  calls is_discover (trace (snd (run a w))) = [].
Proof.
  intros Hne. apply nonempty_true in Hne.
  unfold run, create_s3_sink, resolve_topics, initial_state. exec.
  rewrite Hne. exec. unfold config_of.
  destruct (ctx_parent a) as [config|]; exec; [|reflexivity].
  set (s1 := {| trace := []; topics := topiclist a; s3config := S3Config_init a |}).
  pose proof (first_apply_not_normal a w s1 tt) as Hn.
  pose proof (first_apply_calls is_discover a w s1 (fun _ => eq_refl)
                (fun _ _ => eq_refl)) as Hcalls.
  destruct (first_apply a w s1) as [[[]| | |] s2]; cbn [fst snd] in *;
    try exact Hcalls.
  exfalso. apply Hn; [|reflexivity]. apply nonempty_true. exact Hne.
Qed.

(** X2.  When the first discovery raises, the command ends with that exception
    after the announcement and the query: nothing is reported as found and
    the gateway is not contacted. *)
Theorem first_discovery_failure_aborts (a : Args) (w : World) (config : Config)
    (e : exn) :
  ctx_parent a = Some config ->
  topiclist a = [] ->
  first_names w = Raises e ->
  run a w =
    (Raised e,
     {| trace := [Echo (Text "Discoverying Kafka topics...");
                  Discover (broker_url config) (topic_regex a) (excluded_topics a)];
        topics := [];
        s3config := S3Config_init a |}).
Proof.
  intros Hc Hl Hn.
  unfold run, create_s3_sink, resolve_topics, config_of, initial_state. exec.
  rewrite Hl, Hc. exec. rewrite Hn. reflexivity.
Qed.

(** X3.  Without a parent context [config] is never bound: the command raises
    when it first reads it, before any discovery or gateway call. *)
Theorem unbound_config_raises (a : Args) (w : World) :
  ctx_parent a = None ->
  fst (run a w) = Raised (PyException "UnboundLocalError") /\
  calls is_discover (trace (snd (run a w))) = [] /\
  calls is_gateway_call (trace (snd (run a w))) = [].
Proof.
  intros Hc.
  unfold run, create_s3_sink, resolve_topics, config_of, initial_state. exec.
  rewrite Hc. destruct (nonempty (topiclist a)); exec; repeat split; reflexivity.
Qed.

(** X4.  A commit whose validation carries an [error_count] that compares with 0
    returns 0 in either case: it prints the count, adds the hint when the
    count is positive, and uploads nothing. *)
Theorem commit_numeric_error_count (a : Args) (w : World) (config : Config)
    (s1 : St) (validation : string) (c : json) (positive : bool) :
  ctx_parent a = Some config ->
  resolve_topics a w (initial_state a) = (Normal tt, s1) ->
  topics s1 <> [] ->
  validate a = false ->
  dry_run a = false ->
  first_validate w = Returns validation ->
  error_count_of json_loads validation = Some c ->
  gt_zero c = Returns positive ->
  run a w =
    (Returned 0,
     {| trace :=
          trace s1 ++
          [Validate connector_class (asjson (update_topics (topics s1) (s3config s1)));
           Echo (ValidationReturned c)] ++
          (if positive
           then [Echo (Text "Use the --validate option to return the validation results.")]
           else []);
        topics := topics s1;
        s3config := update_topics (topics s1) (s3config s1) |}).
Proof.
  intros Hc Hr Hne Hv Hd Hval Hec Hgt.
  rewrite (run_after_resolve a w config s1 Hc Hr).
  apply nonempty_true in Hne.
  unfold first_apply. exec. rewrite Hne. exec. rewrite Hv. exec. rewrite Hd. exec.
  rewrite Hval. exec. unfold check_validation. exec.
  unfold error_count_of in Hec.
  destruct (json_loads validation) as [parsed|e]; [|discriminate]. exec.
  destruct (subscript parsed "error_count") as [c0|e]; [|discriminate].
  injection Hec as ->. exec. rewrite Hgt. exec.
  destruct positive; exec; rewrite <- !app_assoc; reflexivity.
Qed.

(** X5.  A commit whose validation carries an [error_count] that does not compare
    with 0 (a string, a list, null) prints the count, then the raw text, and
    returns 1. *)
Theorem commit_incomparable_error_count (a : Args) (w : World) (config : Config)
    (s1 : St) (validation : string) (c : json) (e : exn) :
  ctx_parent a = Some config ->
  resolve_topics a w (initial_state a) = (Normal tt, s1) ->
  topics s1 <> [] ->
  validate a = false ->
  dry_run a = false ->
  first_validate w = Returns validation ->
  error_count_of json_loads validation = Some c ->
  gt_zero c = Raises e ->
  run a w =
    (Returned 1,
     {| trace :=
          trace s1 ++
          [Validate connector_class (asjson (update_topics (topics s1) (s3config s1)));
           Echo (ValidationReturned c);
           Echo (Text validation)];
        topics := topics s1;
        s3config := update_topics (topics s1) (s3config s1) |}).
Proof.
  intros Hc Hr Hne Hv Hd Hval Hec Hgt.
  rewrite (run_after_resolve a w config s1 Hc Hr).
  apply nonempty_true in Hne.
  unfold first_apply. exec. rewrite Hne. exec. rewrite Hv. exec. rewrite Hd. exec.
  rewrite Hval. exec. unfold check_validation. exec.
  unfold error_count_of in Hec.
  destruct (json_loads validation) as [parsed|e0]; [|discriminate]. exec.
  destruct (subscript parsed "error_count") as [c0|e0]; [|discriminate].
  injection Hec as ->. exec. rewrite Hgt. exec.
  assert (is_Exception e = true) as ->.
  { unfold gt_zero in Hgt. destruct c; try discriminate;
      injection Hgt as <-; reflexivity. }
  exec. rewrite <- !app_assoc. reflexivity.
Qed.

(** X6.  The [validate] call stands outside the [try]: when it raises, in validate
    mode or in a commit, the exception leaves the command as it is, nothing
    is printed after the call and nothing is uploaded. *)
Theorem validate_failure_propagates (a : Args) (w : World) (config : Config)
    (s1 : St) (e : exn) :
  ctx_parent a = Some config ->
  resolve_topics a w (initial_state a) = (Normal tt, s1) ->
  topics s1 <> [] ->
  validate a = true \/ dry_run a = false ->
  first_validate w = Raises e ->
  run a w =
    (Raised e,
     {| trace :=
          trace s1 ++
          [Validate connector_class (asjson (update_topics (topics s1) (s3config s1)))];
        topics := topics s1;
        s3config := update_topics (topics s1) (s3config s1) |}).
Proof.
  intros Hc Hr Hne Hmode Hval.
  rewrite (run_after_resolve a w config s1 Hc Hr).
  apply nonempty_true in Hne.
  unfold first_apply. exec. rewrite Hne. exec.
  destruct (validate a); exec.
  - rewrite Hval. reflexivity.
  - destruct Hmode as [Hv|Hd]; [discriminate|]. rewrite Hd. exec.
    rewrite Hval. reflexivity.
Qed.

(** X7.  The only return codes are 0 and 1, and 1 is returned only by a commit
    whose validate call answered a text without an [error_count] that
    compares with 0. *)
Theorem return_code_one_only_if (a : Args) (w : World) (code : Z) :
  fst (run a w) = Returned code ->
  code = 0%Z \/
  (code = 1%Z /\ validate a = false /\ dry_run a = false /\
   topics (resolved a w) <> [] /\
   exists validation,
     first_validate w = Returns validation /\
     error_count_positive json_loads validation = None).
Proof.
  unfold run, create_s3_sink, resolved. exec.
  destruct (resolve_topics_result a w (initial_state a)) as [Hres|[e Hres]];
    destruct (resolve_topics a w (initial_state a)) as [[[]| | |] s1];
    cbn [fst snd] in *; try discriminate.
  unfold config_of. destruct (ctx_parent a) as [config|]; exec; [|discriminate].
  unfold first_apply. exec.
  destruct (nonempty (topics s1)) eqn:Hne; exec.
  - apply nonempty_true in Hne.
    destruct (validate a); exec.
    { destruct (first_validate w); exec; [|discriminate].
      intros [= <-]. left. reflexivity. }
    destruct (dry_run a); exec.
    { intros [= <-]. left. reflexivity. }
    destruct (first_validate w) as [validation|e]; exec; [|discriminate].
    assert (error_count_positive json_loads validation = None ->
              1%Z = 0%Z \/
              (1%Z = 1%Z /\ false = false /\ false = false /\ topics s1 <> [] /\
               exists v, Returns validation = Returns v /\
                         error_count_positive json_loads v = None)) as Hone.
    { intros Hnone. right. repeat split; try assumption.
      exists validation. split; [reflexivity|exact Hnone]. }
    unfold check_validation. exec.
    unfold error_count_positive, error_count_of in Hone.
    destruct (json_loads validation) as [parsed|e]; exec.
    + destruct (subscript parsed "error_count") as [c|e]; exec.
      * destruct (gt_zero c) as [[|]|e]; exec;
          try (intros [= <-]; left; reflexivity).
        destruct (is_Exception e); exec; [|discriminate].
        intros [= <-]. apply Hone. reflexivity.
      * destruct (is_Exception e); exec; [|discriminate].
        intros [= <-]. apply Hone. reflexivity.
    + destruct (is_Exception e); exec; [|discriminate].
      intros [= <-]. apply Hone. reflexivity.
  - destruct (auto_update a); exec.
    + destruct (auto_update_loop_result a (ticks w) s1) as [Hl|[e Hl]];
        destruct (auto_update_loop a (ticks w) s1) as [[[]| | |] s2];
        cbn [fst snd] in *; discriminate.
    + intros [= <-]. left. reflexivity.
Qed.

(** *** Further behaviour of the loop *)

(** What an iteration adds to the trace: one sleep, at most one
    [create_or_update], and nothing that [p] selects when [p] rejects the
    four kinds of event the loop body can emit. *)
Lemma tick_events (a : Args) (w : TickWorld) (s : St) :
  exists evs,
    trace (snd (tick a w s)) = trace s ++ evs /\
    length (calls is_sleep evs) = 1 /\
    length (calls is_create_or_update evs) <= 1 /\
    (forall p : event -> bool,
       (forall m, p (Echo m) = false) ->
       (forall b r x, p (Discover b r x) = false) ->
       (forall c j, p (CreateOrUpdate c j) = false) ->
       (forall ms, p (Sleep ms) = false) ->
       calls p evs = []).
Proof.
  assert (forall (p : event -> bool) evs,
            Forall (fun ev => p ev = false) evs -> calls p evs = []) as Hnone.
  { intros p evs Hall. induction Hall as [|ev evs Hev _ IH]; simpl; [reflexivity|].
    rewrite Hev. exact IH. }
  assert (forall evs,
            length (calls is_sleep evs) = 1 ->
            length (calls is_create_or_update evs) <= 1 ->
            Forall (fun ev => forall p : event -> bool,
                      (forall m, p (Echo m) = false) ->
                      (forall b r x, p (Discover b r x) = false) ->
                      (forall c j, p (CreateOrUpdate c j) = false) ->
                      (forall ms, p (Sleep ms) = false) ->
                      p ev = false) evs ->
            exists evs',
              trace s ++ evs = trace s ++ evs' /\
              length (calls is_sleep evs') = 1 /\
              length (calls is_create_or_update evs') <= 1 /\
              (forall p : event -> bool,
                 (forall m, p (Echo m) = false) ->
                 (forall b r x, p (Discover b r x) = false) ->
                 (forall c j, p (CreateOrUpdate c j) = false) ->
                 (forall ms, p (Sleep ms) = false) ->
                 calls p evs' = [])) as Hpack.
  { intros evs Hsl Hup Hall. exists evs. split; [reflexivity|].
    split; [exact Hsl|]. split; [exact Hup|].
    intros p He Hd Hc Hs. apply Hnone.
    eapply Forall_impl; [exact Hall|]. intros ev Hev. apply Hev; assumption. }
  unfold tick, config_of. exec.
  destruct (sleep_result w) as [[]|e]; exec.
  2:{ apply Hpack; [reflexivity|simpl; lia|repeat constructor; auto]. }
  destruct (ctx_parent a) as [config|]; exec.
  2:{ apply Hpack; [reflexivity|simpl; lia|repeat constructor; auto]. }
  destruct (tick_names w) as [current|e]; exec.
  - destruct (nonempty (new_topics current (topics s))); exec.
    + destruct (tick_create_or_update w) as [[]|e]; exec;
        [|destruct (is_KeyboardInterrupt e); exec];
        rewrite <- !app_assoc; simpl;
        (apply Hpack; [reflexivity|simpl; lia|repeat constructor; auto]).
    + rewrite <- !app_assoc; simpl.
      apply Hpack; [reflexivity|simpl; lia|repeat constructor; auto].
  - destruct (is_KeyboardInterrupt e); exec; rewrite <- !app_assoc; simpl;
      (apply Hpack; [reflexivity|simpl; lia|repeat constructor; auto]).
Qed.

(** The loop adds to the trace nothing but sleeps, discoveries, prints and
    [create_or_update] calls. *)
Lemma auto_update_loop_keeps (p : event -> bool) (a : Args) (ws : list TickWorld)
    (s : St) :
  (forall m, p (Echo m) = false) ->
  (forall b r x, p (Discover b r x) = false) ->
  (forall c j, p (CreateOrUpdate c j) = false) ->
  (forall ms, p (Sleep ms) = false) ->
  calls p (trace (snd (auto_update_loop a ws s))) = calls p (trace s).
Proof.
  intros He Hd Hc Hs. revert s. induction ws as [|w ws IH]; intros s; [reflexivity|].
  simpl. exec. destruct (tick_events a w s) as (evs & Ht & _ & _ & Hp).
  assert (calls p (trace (snd (tick a w s))) = calls p (trace s)) as Hk.
  { rewrite Ht, calls_app, (Hp p He Hd Hc Hs). apply app_nil_r. }
  destruct (tick a w s) as [[[]| | |] s2]; cbn [fst snd] in *; try exact Hk.
  rewrite IH. exact Hk.
Qed.

(** X12.  However the world answers, the loop makes at most one [create_or_update]
    per sleep, and sleeps at most once per observed iteration. *)
Theorem loop_uploads_at_most_once_per_sleep (a : Args) (ws : list TickWorld) (s : St) :
  exists evs,
    trace (snd (auto_update_loop a ws s)) = trace s ++ evs /\
    length (calls is_create_or_update evs) <= length (calls is_sleep evs) /\
    length (calls is_sleep evs) <= length ws.
Proof.
  revert s. induction ws as [|w ws IH]; intros s.
  - exists []. simpl. split; [symmetry; apply app_nil_r|]. split; lia.
  - simpl. exec. destruct (tick_events a w s) as (evs & Ht & Hsl & Hup & _).
    destruct (tick a w s) as [[[]| | |] s2]; cbn [fst snd] in *;
      try (exists evs; split; [exact Ht|]; split; lia).
    destruct (IH s2) as (evs' & Hl & Hup' & Hsl').
    exists (evs ++ evs'). rewrite Hl, Ht, <- app_assoc.
    split; [reflexivity|]. rewrite !calls_app, !length_app. split; lia.
Qed.

(** X10.  While every iteration sleeps, discovers and finds only topics that were
    already applied (the set may have shrunk), the loop goes on without a
    single [create_or_update] and leaves [topics] and the configuration as
    they were. *)
Theorem stable_topics_no_upload (a : Args) (ws : list TickWorld) (s : St)
    (config : Config) :
  ctx_parent a = Some config ->
  Forall (fun w =>
            sleep_result w = Returns tt /\
            exists current,
              tick_names w = Returns current /\
              forall t, t ∈ current -> t ∈ topics s) ws ->
  auto_update_loop a ws s =
    (Looping,
     {| trace := trace s ++ polling a config (length ws);
        topics := topics s;
        s3config := s3config s |}).
Proof.
  intros Hc Hall. revert s Hall. induction ws as [|w ws IH]; intros s Hall.
  - destruct s. simpl. unfold polling. simpl. rewrite app_nil_r. reflexivity.
  - inversion Hall as [|w' ws' (Hs & current & Hn & Hsub) Hrest]; subst.
    simpl. exec.
    rewrite (tick_quiet a w s config current Hc Hs Hn)
      by (apply new_topics_nil_subset; exact Hsub).
    rewrite IH by exact Hrest. cbn [trace topics s3config].
    unfold polling, polled. simpl. rewrite <- !app_assoc. reflexivity.
Qed.

(** X11.  An upload is not repeated: when one iteration uploads [current] with
    success and the next discovers nothing outside [current], the second
    makes no [create_or_update]. *)
Theorem growth_uploaded_once (a : Args) (w1 w2 : TickWorld) (s : St)
    (config : Config) (current next : list string) :
  ctx_parent a = Some config ->
  sleep_result w1 = Returns tt ->
  tick_names w1 = Returns current ->
  tick_create_or_update w1 = Returns tt ->
  (list_to_set current : gset string) ∖ list_to_set (topics s) <> ∅ ->
  sleep_result w2 = Returns tt ->
  tick_names w2 = Returns next ->
  (forall t, t ∈ next -> t ∈ current) ->
  fst (auto_update_loop a [w1; w2] s) = Looping /\
  topics (snd (auto_update_loop a [w1; w2] s)) = current /\
  calls is_create_or_update (trace (snd (auto_update_loop a [w1; w2] s))) =
    calls is_create_or_update (trace s) ++
    [CreateOrUpdate (name a) (asjson (update_topics current (s3config s)))].
Proof.
  intros Hc Hs1 Hn1 Hu1 Hd Hs2 Hn2 Hsub.
  rewrite <- new_topics_nil_iff in Hd.
  simpl. exec.
  rewrite (tick_update a w1 s config current Hc Hs1 Hn1 Hd), Hu1.
  rewrite (tick_quiet a w2 _ config next Hc Hs2 Hn2)
    by (apply new_topics_nil_subset; exact Hsub).
  cbn [fst snd trace topics]. split; [reflexivity|]. split; [reflexivity|].
  unfold polled. cbn [trace]. unfold polled.
  rewrite !calls_app. simpl. rewrite !app_nil_r. reflexivity.
Qed.

(** X14.  [time.sleep] stands before the [try]: an exception raised while
    sleeping, KeyboardInterrupt included, leaves the loop as it is, without
    being turned into a ClickException. *)
Theorem sleep_interrupt_propagates (a : Args) (w : TickWorld) (ws : list TickWorld)
    (s : St) (e : exn) :
  sleep_result w = Raises e ->
  auto_update_loop a (w :: ws) s =
    (Raised e,
     {| trace := trace s ++ [Sleep (check_interval a)];
        topics := topics s;
        s3config := s3config s |}).
Proof.
  intros Hs. simpl. unfold tick. exec. rewrite Hs. reflexivity.
Qed.

(** While the sleeps return, the loop never ends with a KeyboardInterrupt. *)
Lemma loop_never_ends_interrupted (a : Args) (ws : list TickWorld) (s : St) :
  Forall (fun w => sleep_result w = Returns tt) ws ->
  fst (auto_update_loop a ws s) <> Raised KeyboardInterrupt.
Proof.
  intros Hall. revert s. induction Hall as [|w ws Hs _ IH]; intros s; [discriminate|].
  simpl. exec.
  assert (fst (tick a w s) <> Raised KeyboardInterrupt) as Ht.
  { unfold tick, config_of. exec. rewrite Hs. exec.
    destruct (ctx_parent a); exec; [|discriminate].
    destruct (tick_names w) as [current|e]; exec.
    - destruct (nonempty (new_topics current (topics s))); exec; [|discriminate].
      destruct (tick_create_or_update w) as [[]|[]]; exec; discriminate.
    - destruct e; exec; discriminate. }
  destruct (tick a w s) as [[[]| | |] s2]; cbn [fst snd] in *;
    try exact Ht; try discriminate.
  apply IH.
Qed.

(** X15.  A KeyboardInterrupt raised inside the [try] of the loop body, by
    the discovery or by [create_or_update], is turned into
    ClickException("Interruped."): the loop ends with that exception,
    [topics] keeps its value, and the iteration's sleep is the last one,
    whatever further answers the world holds. *)
Theorem loop_interrupt_converted (a : Args) (w : TickWorld) (ws : list TickWorld)
    (s : St) (config : Config) :
  ctx_parent a = Some config ->
  sleep_result w = Returns tt ->
  tick_names w = Raises KeyboardInterrupt \/
  (exists current,
     tick_names w = Returns current /\
     (list_to_set current : gset string) ∖ list_to_set (topics s) <> ∅ /\
     tick_create_or_update w = Raises KeyboardInterrupt) ->
  fst (auto_update_loop a (w :: ws) s) = Raised (ClickException "Interruped.") /\
  topics (snd (auto_update_loop a (w :: ws) s)) = topics s /\
  calls is_sleep (trace (snd (auto_update_loop a (w :: ws) s))) =
    calls is_sleep (trace s) ++ [Sleep (check_interval a)].
Proof.
  intros Hc Hs [Hn|(current & Hn & Hd & Hu)]; simpl; exec.
  - rewrite (tick_discovery_raises a w s config KeyboardInterrupt Hc Hs Hn).
    cbn [fst snd trace topics]. unfold polled. rewrite calls_app.
    repeat split; reflexivity.
  - rewrite <- new_topics_nil_iff in Hd.
    rewrite (tick_update a w s config current Hc Hs Hn Hd), Hu.
    cbn [fst snd trace topics]. unfold polled. rewrite !calls_app. simpl.
    rewrite app_nil_r. repeat split; reflexivity.
Qed.

(** *** Further behaviour of the whole command *)

(** X8.  A run that has topics to export makes no [create_or_update] and never
    sleeps: the apply leaves the function on every path, so neither the
    upload of line 306 nor the loop of line 308 is reached. *)
Theorem topics_given_no_upload_no_loop (a : Args) (w : World) (config : Config)
    (s1 : St) :
  ctx_parent a = Some config ->
  resolve_topics a w (initial_state a) = (Normal tt, s1) ->
  topics s1 <> [] ->
  calls is_create_or_update (trace (snd (run a w))) = [] /\
  calls is_sleep (trace (snd (run a w))) = [].
Proof.
  intros Hc Hr Hne. split; [exact (apply_never_uploads a w config s1 Hc Hr Hne)|].
  destruct (calls is_sleep (trace (snd (run a w)))) as [|ev evs] eqn:Hs;
    [reflexivity|].
  destruct (run_sleeps_only_if a w) as [_ Hempty]; [rewrite Hs; discriminate|].
  destruct (resolve_topics_normal a w s1 Hr) as [Hs1 _].
  rewrite <- Hs1 in Hempty. contradiction.
Qed.

(** X13.  Once the loop is entered the command never returns an exit code: it is
    still looping when the observation ends, or an exception has ended
    it. *)
Theorem loop_entered_never_returns (a : Args) (w : World) :
  calls is_sleep (trace (snd (run a w))) <> [] ->
  fst (run a w) = Looping \/ exists e, fst (run a w) = Raised e.
Proof.
  pose proof (resolved_no_sleep a w) as Hq. revert Hq.
  unfold run, create_s3_sink, resolved. exec.
  destruct (resolve_topics_result a w (initial_state a)) as [Hres|[e Hres]];
    destruct (resolve_topics a w (initial_state a)) as [[[]| | |] s1];
    cbn [fst snd] in *; try discriminate;
    intros Hq Hs; try contradiction.
  unfold config_of in *.
  destruct (ctx_parent a) as [config|]; exec; [|contradiction].
  destruct (topics s1) as [|t ts] eqn:Ht.
  - rewrite first_apply_no_topics in * by exact Ht.
    destruct (auto_update a); exec; [|contradiction].
    destruct (auto_update_loop_result a (ticks w) s1) as [Hl|[e Hl]];
      destruct (auto_update_loop a (ticks w) s1) as [[[]| | |] s2];
      cbn [fst snd] in *; try discriminate.
    + left. reflexivity.
    + right. eexists. reflexivity.
  - exfalso. apply Hs.
    pose proof (first_apply_not_normal a w s1 tt) as Hn.
    pose proof (first_apply_calls is_sleep a w s1 (fun _ => eq_refl)
                  (fun _ _ => eq_refl)) as Hcalls.
    destruct (first_apply a w s1) as [[[]| | |] s2]; cbn [fst snd] in *;
      try (rewrite Hcalls; exact Hq).
    exfalso. apply Hn; [rewrite Ht; discriminate|reflexivity].
Qed.

(** X9.  Whatever the arguments and the world, the command calls [validate] at
    most once. *)
Theorem run_validates_at_most_once (a : Args) (w : World) :
  length (calls is_validate (trace (snd (run a w)))) <= 1.
Proof.
  assert (calls is_validate (trace (resolved a w)) = []) as Hq.
  { unfold resolved. rewrite resolve_topics_calls; reflexivity. }
  revert Hq. unfold run, create_s3_sink, resolved. exec.
  destruct (resolve_topics a w (initial_state a)) as [[[]| | |] s1];
    cbn [fst snd]; intros Hq; try (rewrite Hq; simpl; lia).
  unfold config_of.
  destruct (ctx_parent a) as [config|]; exec; [|rewrite Hq; simpl; lia].
  assert (length (calls is_validate (trace (snd (first_apply a w s1)))) <= 1) as Hfa.
  { unfold first_apply. exec.
    destruct (nonempty (topics s1)); exec; [|rewrite Hq; simpl; lia].
    destruct (validate a); exec.
    { destruct (first_validate w); exec; rewrite ?calls_app, Hq; simpl; lia. }
    destruct (dry_run a); exec; [rewrite calls_app, Hq; simpl; lia|].
    destruct (first_validate w) as [validation|e]; exec;
      [|rewrite calls_app, Hq; simpl; lia].
    match goal with |- context [check_validation validation ?s0] =>
      pose proof (check_validation_not_normal validation s0) as Hn;
      pose proof (check_validation_calls is_validate validation s0
                    (fun _ => eq_refl)) as Hcv;
      destruct (check_validation validation s0) as [[[]| | |] s2]
    end; cbn [fst snd trace] in *;
      try (rewrite Hcv, calls_app, Hq; simpl; lia).
    exfalso. apply (Hn tt). reflexivity. }
  destruct (first_apply a w s1) as [[[]| | |] s2]; cbn [fst snd] in *;
    try exact Hfa.
  destruct (auto_update a); exec; [|exact Hfa].
  pose proof (auto_update_loop_keeps is_validate a (ticks w) s2
                (fun _ => eq_refl) (fun _ _ _ => eq_refl)
                (fun _ _ => eq_refl) (fun _ => eq_refl)) as Hloop.
  destruct (auto_update_loop a (ticks w) s2) as [[[]| | |] s3];
    cbn [fst snd] in *; rewrite Hloop; exact Hfa.
Qed.

(** X16.  The new topics are the discovered ones that are not among the applied
    ones, each listed once: duplicates and order in either list play no
    part. *)
Theorem new_topics_elements (current lastApplied : list string) :
  NoDup (new_topics current lastApplied) /\
  (forall t, t ∈ new_topics current lastApplied <->
             t ∈ current /\ t ∉ lastApplied).
Proof using Type.
  unfold new_topics. split; [apply NoDup_elements|].
  intros t. rewrite elem_of_elements, elem_of_difference, !elem_of_list_to_set.
  reflexivity.
Qed.

End Facts.

(** * The properties at concrete inputs *)

(** C1.  A commit with one topic whose validation reports [error_count] 0:
    the command calls [validate], prints the count and returns 0 from inside
    the [try] (line 301).  The upload of lines 305-306 is never reached, so
    no [create_or_update] is made although the validation is clean. *)
Theorem commit_clean_validation_no_upload :
  Sample.run Sample.commit_args Sample.clean_world =
  (Returned 0,
   {| trace := [Validate Sample.connector_class "s3-sink:a";
                Echo (ValidationReturned (JInt 0))];
      topics := ["a"];
      s3config := update_topics ["a"] (S3Config_init Sample.commit_args) |}).
Proof. vm_compute. reflexivity. Qed.

(** C2 fails as stated: with no topic listed or discovered the apply is
    skipped, and with --auto-update the loop body runs all the same. *)
Lemma loop_runs_after_skipped_apply :
  fst (Sample.run Sample.watch_args Sample.quiet_world) = Looping /\
  trace (snd (Sample.run Sample.watch_args Sample.quiet_world)) =
    [Echo (Text "Discoverying Kafka topics...");
     Discover "localhost:9092" ".*" EmptyString;
     Echo (FoundTopics 0);
     Sleep 15000;
     Discover "localhost:9092" ".*" EmptyString].
Proof. vm_compute. split; reflexivity. Qed.

(** [loop_entry] at a run that finds nothing at first and watches for topics. *)
Lemma loop_entry_witness :
  ctx_parent Sample.watch_args = Some Sample.config /\
  (auto_update Sample.watch_args = true /\
   (topics (resolved Sample.watch_args Sample.topic_a_world) = [] \/
    commit_validated Sample.loads Sample.watch_args Sample.topic_a_world = true)) /\
  calls is_sleep (trace (snd (Sample.run Sample.watch_args Sample.topic_a_world))) <> [].
Proof.
  destruct (loop_entry Sample.asjson Sample.connector_class Sample.loads
              Sample.watch_args Sample.topic_a_world Sample.config eq_refl)
    as [Honly Hruns].
  assert (calls is_sleep
            (trace (snd (Sample.run Sample.watch_args Sample.topic_a_world))) <> [])
    as Hs.
  { apply Hruns; [reflexivity|reflexivity|reflexivity|discriminate]. }
  split; [reflexivity|]. split; [apply Honly; exact Hs|exact Hs].
Defined.

(** [tick_diff_law] at an iteration that discovers a, b, c after a, b were
    applied. *)
Lemma tick_diff_law_witness :
  (ctx_parent Sample.watch_args = Some Sample.config /\
   sleep_result Sample.growing_tick = Returns tt /\
   tick_names Sample.growing_tick = Returns ["a"; "b"; "c"] /\
   (list_to_set ["a"; "b"; "c"] : gset string) ∖ list_to_set ["a"; "b"] <> ∅ /\
   tick_create_or_update Sample.growing_tick = Returns tt) /\
  calls is_create_or_update
    (trace (snd (tick Sample.asjson Sample.watch_args Sample.growing_tick
                   (Sample.at_loop_head ["a"; "b"])))) =
    [CreateOrUpdate "s3-sink" "s3-sink:a,b,c"] /\
  fst (tick Sample.asjson Sample.watch_args Sample.growing_tick
         (Sample.at_loop_head ["a"; "b"])) = Normal tt /\
  topics (snd (tick Sample.asjson Sample.watch_args Sample.growing_tick
                 (Sample.at_loop_head ["a"; "b"]))) = ["a"; "b"; "c"].
Proof.
  assert ((list_to_set ["a"; "b"; "c"] : gset string) ∖ list_to_set ["a"; "b"] <> ∅)
    as Hd.
  { rewrite <- new_topics_nil_iff. vm_compute. discriminate. }
  destruct (tick_diff_law Sample.asjson Sample.watch_args Sample.growing_tick
              (Sample.at_loop_head ["a"; "b"]) Sample.config ["a"; "b"; "c"]
              eq_refl eq_refl eq_refl) as [_ Hgrow].
  destruct (Hgrow Hd) as (_ & Hcalls & Hok).
  split; [repeat split; try reflexivity; exact Hd|].
  split; [exact Hcalls|]. apply Hok. reflexivity.
Defined.

(** C4 fails as stated: the first iteration's [create_or_update] raises, and
    the run ends there.  The world holds a second iteration with the same
    discovered set, but it never takes place: one sleep, one
    [create_or_update], no retry. *)
Lemma upsert_failure_not_retried :
  fst (Sample.run Sample.watch_args Sample.failing_upsert_world) =
    Raised (PyException "HTTPError") /\
  trace (snd (Sample.run Sample.watch_args Sample.failing_upsert_world)) =
    [Echo (Text "Discoverying Kafka topics...");
     Discover "localhost:9092" ".*" EmptyString;
     Echo (FoundTopics 0);
     Sleep 15000;
     Discover "localhost:9092" ".*" EmptyString;
     Echo (Text "Found new topics, updating the connector...");
     CreateOrUpdate "s3-sink" "s3-sink:a"].
Proof. vm_compute. split; reflexivity. Qed.

(** [upsert_failure_leaves_loop] at a first iteration whose upload raises. *)
Lemma upsert_failure_leaves_loop_witness :
  (ctx_parent Sample.watch_args = Some Sample.config /\
   sleep_result Sample.failing_upsert_tick = Returns tt /\
   tick_names Sample.failing_upsert_tick = Returns ["a"] /\
   (list_to_set ["a"] : gset string) ∖ list_to_set [] <> ∅ /\
   tick_create_or_update Sample.failing_upsert_tick = Raises (PyException "HTTPError")) /\
  auto_update_loop Sample.asjson Sample.watch_args
    [Sample.failing_upsert_tick; Sample.topic_a_tick] (Sample.at_loop_head []) =
    (Raised (PyException "HTTPError"),
     {| trace := [Sleep 15000;
                  Discover "localhost:9092" ".*" EmptyString;
                  Echo (Text "Found new topics, updating the connector...");
                  CreateOrUpdate "s3-sink" "s3-sink:a"];
        topics := [];
        s3config := update_topics ["a"] (S3Config_init Sample.watch_args) |}).
Proof.
  assert ((list_to_set ["a"] : gset string) ∖ list_to_set [] <> ∅) as Hd.
  { rewrite <- new_topics_nil_iff. vm_compute. discriminate. }
  split; [repeat split; try reflexivity; exact Hd|].
  apply (upsert_failure_leaves_loop Sample.asjson Sample.watch_args
           Sample.failing_upsert_tick [Sample.topic_a_tick] (Sample.at_loop_head [])
           Sample.config ["a"] (PyException "HTTPError")
           eq_refl eq_refl eq_refl Hd eq_refl).
Defined.

(** C5 fails as stated: discovery raises in the first iteration, and the run
    ends there with that exception.  The second iteration the world holds
    never takes place. *)
Lemma discovery_failure_ends_run :
  fst (Sample.run Sample.watch_args Sample.failing_discovery_world) =
    Raised (PyException "KafkaException") /\
  trace (snd (Sample.run Sample.watch_args Sample.failing_discovery_world)) =
    [Echo (Text "Discoverying Kafka topics...");
     Discover "localhost:9092" ".*" EmptyString;
     Echo (FoundTopics 0);
     Sleep 15000;
     Discover "localhost:9092" ".*" EmptyString].
Proof. vm_compute. split; reflexivity. Qed.

(** [discovery_failure_leaves_loop] at a first iteration whose discovery
    raises. *)
Lemma discovery_failure_leaves_loop_witness :
  (ctx_parent Sample.watch_args = Some Sample.config /\
   sleep_result Sample.failing_discovery_tick = Returns tt /\
   tick_names Sample.failing_discovery_tick = Raises (PyException "KafkaException")) /\
  auto_update_loop Sample.asjson Sample.watch_args
    [Sample.failing_discovery_tick; Sample.topic_a_tick] (Sample.at_loop_head ["b"]) =
    (Raised (PyException "KafkaException"),
     {| trace := [Sleep 15000; Discover "localhost:9092" ".*" EmptyString];
        topics := ["b"];
        s3config := S3Config_init Sample.watch_args |}).
Proof.
  split; [repeat split; reflexivity|].
  apply (discovery_failure_leaves_loop Sample.asjson Sample.watch_args
           Sample.failing_discovery_tick [Sample.topic_a_tick]
           (Sample.at_loop_head ["b"]) Sample.config
           (PyException "KafkaException") eq_refl eq_refl eq_refl).
Defined.

(** [commit_unparsable_exit_status] at a commit answered by an HTML error
    page. *)
Lemma commit_unparsable_exit_status_witness :
  (ctx_parent Sample.commit_args = Some Sample.config /\
   resolve_topics Sample.commit_args Sample.bad_gateway_world
     (initial_state Sample.commit_args) = (Normal tt, initial_state Sample.commit_args) /\
   topics (initial_state Sample.commit_args) <> [] /\
   validate Sample.commit_args = false /\
   dry_run Sample.commit_args = false /\
   first_validate Sample.bad_gateway_world = Returns Sample.bad_gateway /\
   lacks_error_count Sample.loads Sample.bad_gateway) /\
  fst (Sample.run Sample.commit_args Sample.bad_gateway_world) = Returned 1 /\
  exit_status (fst (Sample.run Sample.commit_args Sample.bad_gateway_world)) =
    Some 0%Z /\
  trace (snd (Sample.run Sample.commit_args Sample.bad_gateway_world)) =
    [Validate Sample.connector_class "s3-sink:a"; Echo (Text Sample.bad_gateway)] /\
  calls is_create_or_update
    (trace (snd (Sample.run Sample.commit_args Sample.bad_gateway_world))) = [].
Proof.
  assert (topics (initial_state Sample.commit_args) <> []) as Hne by discriminate.
  assert (lacks_error_count Sample.loads Sample.bad_gateway) as Hlack.
  { left. exists (PyException "JSONDecodeError"). split; reflexivity. }
  split; [repeat split; try reflexivity; [exact Hne|exact Hlack]|].
  apply (commit_unparsable_exit_status Sample.asjson Sample.connector_class
           Sample.loads Sample.commit_args Sample.bad_gateway_world Sample.config
           (initial_state Sample.commit_args) Sample.bad_gateway
           eq_refl eq_refl Hne eq_refl eq_refl eq_refl Hlack).
Defined.

(** C7 fails as stated: with --dry-run and --validate together the validate
    branch comes first, so the gateway's [validate] is called and its answer,
    not the configuration, is printed. *)
Lemma dry_run_with_validate_calls_gateway :
  dry_run Sample.dry_run_validate_args = true /\
  fst (Sample.run Sample.dry_run_validate_args Sample.clean_world) = Returned 0 /\
  trace (snd (Sample.run Sample.dry_run_validate_args Sample.clean_world)) =
    [Validate Sample.connector_class "s3-sink:a"; Echo (Text Sample.clean)].
Proof. vm_compute. repeat split; reflexivity. Qed.

(** With --dry-run, --auto-update and nothing to export at first, the loop
    is entered and uploads once a topic shows up. *)
Example dry_run_loop_uploads :
  dry_run Sample.dry_run_watch_args = true /\
  calls is_create_or_update
    (trace (snd (Sample.run Sample.dry_run_watch_args Sample.topic_a_world))) =
    [CreateOrUpdate "s3-sink" "s3-sink:a"].
Proof. vm_compute. split; reflexivity. Qed.

(** [dry_run_prints_config] at a dry run with two topics. *)
Lemma dry_run_prints_config_witness :
  (ctx_parent Sample.dry_run_args = Some Sample.config /\
   resolve_topics Sample.dry_run_args Sample.clean_world
     (initial_state Sample.dry_run_args) = (Normal tt, initial_state Sample.dry_run_args) /\
   topics (initial_state Sample.dry_run_args) <> [] /\
   dry_run Sample.dry_run_args = true /\
   validate Sample.dry_run_args = false) /\
  Sample.run Sample.dry_run_args Sample.clean_world =
    (Returned 0,
     {| trace := [Echo (Text "s3-sink:a,b")];
        topics := ["a"; "b"];
        s3config := update_topics ["a"; "b"] (S3Config_init Sample.dry_run_args) |}) /\
  calls is_gateway_call
    (trace (snd (Sample.run Sample.dry_run_args Sample.clean_world))) = [].
Proof.
  assert (topics (initial_state Sample.dry_run_args) <> []) as Hne by discriminate.
  split; [repeat split; try reflexivity; exact Hne|].
  apply (dry_run_prints_config Sample.asjson Sample.connector_class Sample.loads
           Sample.dry_run_args Sample.clean_world Sample.config
           (initial_state Sample.dry_run_args) eq_refl eq_refl Hne eq_refl eq_refl).
Defined.

(** [empty_topic_set_no_gateway_call] at a run that lists and finds no
    topic. *)
Lemma empty_topic_set_no_gateway_call_witness :
  (ctx_parent Sample.discover_args = Some Sample.config /\
   topiclist Sample.discover_args = [] /\
   first_names Sample.clean_world = Returns [] /\
   auto_update Sample.discover_args = false) /\
  Sample.run Sample.discover_args Sample.clean_world =
    (Returned 0,
     {| trace := [Echo (Text "Discoverying Kafka topics...");
                  Discover "localhost:9092" ".*" EmptyString;
                  Echo (FoundTopics 0)];
        topics := [];
        s3config := S3Config_init Sample.discover_args |}).
Proof.
  split; [repeat split; reflexivity|].
  destruct (empty_topic_set_no_gateway_call Sample.asjson Sample.connector_class
              Sample.loads Sample.discover_args Sample.clean_world Sample.config
              eq_refl eq_refl eq_refl)
    as (_ & _ & _ & Hrun).
  apply Hrun. reflexivity.
Defined.

(** [validate_mode_validates_once] at a --validate run with two topics. *)
Lemma validate_mode_validates_once_witness :
  (ctx_parent Sample.validate_args = Some Sample.config /\
   resolve_topics Sample.validate_args Sample.two_errors_world
     (initial_state Sample.validate_args) =
     (Normal tt, initial_state Sample.validate_args) /\
   topics (initial_state Sample.validate_args) <> [] /\
   validate Sample.validate_args = true /\
   first_validate Sample.two_errors_world = Returns Sample.two_errors) /\
  calls is_gateway_call
    (trace (snd (Sample.run Sample.validate_args Sample.two_errors_world))) =
    [Validate Sample.connector_class "s3-sink:a,b"] /\
  fst (Sample.run Sample.validate_args Sample.two_errors_world) = Returned 0 /\
  trace (snd (Sample.run Sample.validate_args Sample.two_errors_world)) =
    [Validate Sample.connector_class "s3-sink:a,b"; Echo (Text Sample.two_errors)].
Proof.
  assert (topics (initial_state Sample.validate_args) <> []) as Hne by discriminate.
  split; [repeat split; try reflexivity; exact Hne|].
  destruct (validate_mode_validates_once Sample.asjson Sample.connector_class
              Sample.loads Sample.validate_args Sample.two_errors_world Sample.config
              (initial_state Sample.validate_args)
              eq_refl eq_refl Hne eq_refl) as (Hcalls & _ & Hecho).
  split; [exact Hcalls|]. apply Hecho. reflexivity.
Defined.

(** * Further properties at concrete inputs *)

(** [explicit_topics_never_discover] at a listed topic with --auto-update. *)
Lemma explicit_topics_never_discover_witness :
  topiclist Sample.listed_watch_args <> [] /\
  calls is_discover
    (trace (snd (Sample.run Sample.listed_watch_args Sample.topic_a_world))) = [].
Proof.
  assert (topiclist Sample.listed_watch_args <> []) as Hne by discriminate.
  split; [exact Hne|].
  apply (explicit_topics_never_discover Sample.asjson Sample.connector_class
           Sample.loads Sample.listed_watch_args Sample.topic_a_world Hne).
Defined.

(** [first_discovery_failure_aborts] at an unreachable broker. *)
Lemma first_discovery_failure_aborts_witness :
  (ctx_parent Sample.discover_args = Some Sample.config /\
   topiclist Sample.discover_args = [] /\
   first_names Sample.broker_down_world = Raises (PyException "KafkaException")) /\
  Sample.run Sample.discover_args Sample.broker_down_world =
    (Raised (PyException "KafkaException"),
     {| trace := [Echo (Text "Discoverying Kafka topics...");
                  Discover "localhost:9092" ".*" EmptyString];
        topics := [];
        s3config := S3Config_init Sample.discover_args |}).
Proof.
  split; [repeat split; reflexivity|].
  apply (first_discovery_failure_aborts Sample.asjson Sample.connector_class
           Sample.loads Sample.discover_args Sample.broker_down_world Sample.config
           (PyException "KafkaException") eq_refl eq_refl eq_refl).
Defined.

(** [unbound_config_raises] at an invocation without parent. *)
Lemma unbound_config_raises_witness :
  ctx_parent Sample.orphan_args = None /\
  fst (Sample.run Sample.orphan_args Sample.clean_world) =
    Raised (PyException "UnboundLocalError").
Proof.
  split; [reflexivity|].
  apply (unbound_config_raises Sample.asjson Sample.connector_class Sample.loads
           Sample.orphan_args Sample.clean_world eq_refl).
Defined.

(** [commit_numeric_error_count] at a validation that reports two errors. *)
Lemma commit_numeric_error_count_witness :
  (ctx_parent Sample.commit_args = Some Sample.config /\
   resolve_topics Sample.commit_args Sample.two_errors_world
     (initial_state Sample.commit_args) = (Normal tt, initial_state Sample.commit_args) /\
   topics (initial_state Sample.commit_args) <> [] /\
   validate Sample.commit_args = false /\
   dry_run Sample.commit_args = false /\
   first_validate Sample.two_errors_world = Returns Sample.two_errors /\
   error_count_of Sample.loads Sample.two_errors = Some (JInt 2) /\
   gt_zero (JInt 2) = Returns true) /\
  Sample.run Sample.commit_args Sample.two_errors_world =
    (Returned 0,
     {| trace := [Validate Sample.connector_class "s3-sink:a";
                  Echo (ValidationReturned (JInt 2));
                  Echo (Text "Use the --validate option to return the validation results.")];
        topics := ["a"];
        s3config := update_topics ["a"] (S3Config_init Sample.commit_args) |}).
Proof.
  assert (topics (initial_state Sample.commit_args) <> []) as Hne by discriminate.
  split; [repeat split; try reflexivity; exact Hne|].
  apply (commit_numeric_error_count Sample.asjson Sample.connector_class
           Sample.loads Sample.commit_args Sample.two_errors_world Sample.config
           (initial_state Sample.commit_args) Sample.two_errors (JInt 2) true
           eq_refl eq_refl Hne eq_refl eq_refl eq_refl eq_refl eq_refl).
Defined.

(** [commit_incomparable_error_count] at a validation whose count is
    null. *)
Lemma commit_incomparable_error_count_witness :
  (ctx_parent Sample.commit_args = Some Sample.config /\
   resolve_topics Sample.commit_args Sample.null_count_world
     (initial_state Sample.commit_args) = (Normal tt, initial_state Sample.commit_args) /\
   topics (initial_state Sample.commit_args) <> [] /\
   validate Sample.commit_args = false /\
   dry_run Sample.commit_args = false /\
   first_validate Sample.null_count_world = Returns Sample.null_count /\
   error_count_of Sample.loads_with_null Sample.null_count = Some JNull /\
   gt_zero JNull = Raises (PyException "TypeError")) /\
  run Sample.asjson Sample.connector_class Sample.loads_with_null
    Sample.commit_args Sample.null_count_world =
    (Returned 1,
     {| trace := [Validate Sample.connector_class "s3-sink:a";
                  Echo (ValidationReturned JNull);
                  Echo (Text Sample.null_count)];
        topics := ["a"];
        s3config := update_topics ["a"] (S3Config_init Sample.commit_args) |}).
Proof.
  assert (topics (initial_state Sample.commit_args) <> []) as Hne by discriminate.
  split; [repeat split; try reflexivity; exact Hne|].
  apply (commit_incomparable_error_count Sample.asjson Sample.connector_class
           Sample.loads_with_null Sample.commit_args Sample.null_count_world
           Sample.config (initial_state Sample.commit_args) Sample.null_count JNull
           (PyException "TypeError")
           eq_refl eq_refl Hne eq_refl eq_refl eq_refl eq_refl eq_refl).
Defined.

(** [validate_failure_propagates] at a commit against an unreachable
    gateway. *)
Lemma validate_failure_propagates_witness :
  (ctx_parent Sample.commit_args = Some Sample.config /\
   resolve_topics Sample.commit_args Sample.gateway_down_world
     (initial_state Sample.commit_args) = (Normal tt, initial_state Sample.commit_args) /\
   topics (initial_state Sample.commit_args) <> [] /\
   dry_run Sample.commit_args = false /\
   first_validate Sample.gateway_down_world = Raises (PyException "ConnectionError")) /\
  Sample.run Sample.commit_args Sample.gateway_down_world =
    (Raised (PyException "ConnectionError"),
     {| trace := [Validate Sample.connector_class "s3-sink:a"];
        topics := ["a"];
        s3config := update_topics ["a"] (S3Config_init Sample.commit_args) |}).
Proof.
  assert (topics (initial_state Sample.commit_args) <> []) as Hne by discriminate.
  split; [repeat split; try reflexivity; exact Hne|].
  apply (validate_failure_propagates Sample.asjson Sample.connector_class
           Sample.loads Sample.commit_args Sample.gateway_down_world Sample.config
           (initial_state Sample.commit_args) (PyException "ConnectionError")
           eq_refl eq_refl Hne (or_intror eq_refl) eq_refl).
Defined.

(** [return_code_one_only_if] at a commit answered by an HTML error page. *)
Lemma return_code_one_only_if_witness :
  fst (Sample.run Sample.commit_args Sample.bad_gateway_world) = Returned 1 /\
  (1 = 0 \/
   (1 = 1 /\ validate Sample.commit_args = false /\ dry_run Sample.commit_args = false /\
    topics (resolved Sample.commit_args Sample.bad_gateway_world) <> [] /\
    exists validation,
      first_validate Sample.bad_gateway_world = Returns validation /\
      error_count_positive Sample.loads validation = None))%Z.
Proof.
  split; [reflexivity|].
  apply (return_code_one_only_if Sample.asjson Sample.connector_class Sample.loads
           Sample.commit_args Sample.bad_gateway_world 1%Z eq_refl).
Defined.

(** [topics_given_no_upload_no_loop] at a listed topic with --auto-update
    and a clean validation. *)
Lemma topics_given_no_upload_no_loop_witness :
  (ctx_parent Sample.listed_watch_args = Some Sample.config /\
   resolve_topics Sample.listed_watch_args Sample.topic_a_world
     (initial_state Sample.listed_watch_args) =
     (Normal tt, initial_state Sample.listed_watch_args) /\
   topics (initial_state Sample.listed_watch_args) <> []) /\
  calls is_create_or_update
    (trace (snd (Sample.run Sample.listed_watch_args Sample.topic_a_world))) = [] /\
  calls is_sleep
    (trace (snd (Sample.run Sample.listed_watch_args Sample.topic_a_world))) = [].
Proof.
  assert (topics (initial_state Sample.listed_watch_args) <> []) as Hne by discriminate.
  split; [repeat split; try reflexivity; exact Hne|].
  apply (topics_given_no_upload_no_loop Sample.asjson Sample.connector_class
           Sample.loads Sample.listed_watch_args Sample.topic_a_world Sample.config
           (initial_state Sample.listed_watch_args) eq_refl eq_refl Hne).
Defined.

(** [stable_topics_no_upload] at two iterations after a and b were applied:
    one finds only a, one finds nothing. *)
Lemma stable_topics_no_upload_witness :
  ctx_parent Sample.watch_args = Some Sample.config /\
  auto_update_loop Sample.asjson Sample.watch_args
    [Sample.shrunk_tick; Sample.quiet_tick] (Sample.at_loop_head ["a"; "b"]) =
    (Looping,
     {| trace := [Sleep 15000; Discover "localhost:9092" ".*" EmptyString;
                  Sleep 15000; Discover "localhost:9092" ".*" EmptyString];
        topics := ["a"; "b"];
        s3config := S3Config_init Sample.watch_args |}).
Proof.
  split; [reflexivity|].
  apply (stable_topics_no_upload Sample.asjson Sample.watch_args
           [Sample.shrunk_tick; Sample.quiet_tick] (Sample.at_loop_head ["a"; "b"])
           Sample.config eq_refl).
  repeat constructor.
  - exists ["a"]. split; [reflexivity|].
    intros t Ht. apply list_elem_of_singleton in Ht. subst t. constructor.
  - exists []. split; [reflexivity|].
    intros t Ht. inversion Ht.
Defined.

(** [growth_uploaded_once] at an iteration that finds a new topic a and a
    second one that finds it again. *)
Lemma growth_uploaded_once_witness :
  (ctx_parent Sample.watch_args = Some Sample.config /\
   (list_to_set ["a"] : gset string) ∖ list_to_set [] <> ∅) /\
  fst (auto_update_loop Sample.asjson Sample.watch_args
         [Sample.topic_a_tick; Sample.topic_a_tick] (Sample.at_loop_head [])) =
    Looping /\
  topics (snd (auto_update_loop Sample.asjson Sample.watch_args
                 [Sample.topic_a_tick; Sample.topic_a_tick] (Sample.at_loop_head []))) =
    ["a"] /\
  calls is_create_or_update
    (trace (snd (auto_update_loop Sample.asjson Sample.watch_args
                   [Sample.topic_a_tick; Sample.topic_a_tick]
                   (Sample.at_loop_head [])))) =
    [CreateOrUpdate "s3-sink" "s3-sink:a"].
Proof.
  assert ((list_to_set ["a"] : gset string) ∖ list_to_set [] <> ∅) as Hd.
  { rewrite <- new_topics_nil_iff. vm_compute. discriminate. }
  split; [split; [reflexivity|exact Hd]|].
  apply (growth_uploaded_once Sample.asjson Sample.watch_args
           Sample.topic_a_tick Sample.topic_a_tick (Sample.at_loop_head [])
           Sample.config ["a"] ["a"]
           eq_refl eq_refl eq_refl eq_refl Hd eq_refl eq_refl (fun t Ht => Ht)).
Defined.

(** [loop_entered_never_returns] at a run whose first upload fails. *)
Lemma loop_entered_never_returns_witness :
  calls is_sleep
    (trace (snd (Sample.run Sample.watch_args Sample.failing_upsert_world))) <> [] /\
  (fst (Sample.run Sample.watch_args Sample.failing_upsert_world) = Looping \/
   exists e, fst (Sample.run Sample.watch_args Sample.failing_upsert_world) = Raised e).
Proof.
  assert (calls is_sleep
            (trace (snd (Sample.run Sample.watch_args Sample.failing_upsert_world)))
          <> []) as Hs by (vm_compute; discriminate).
  split; [exact Hs|].
  apply (loop_entered_never_returns Sample.asjson Sample.connector_class Sample.loads
           Sample.watch_args Sample.failing_upsert_world Hs).
Defined.

(** [sleep_interrupt_propagates] at a sleep interrupted from the keyboard. *)
Lemma sleep_interrupt_propagates_witness :
  sleep_result Sample.interrupted_sleep_tick = Raises KeyboardInterrupt /\
  auto_update_loop Sample.asjson Sample.watch_args
    [Sample.interrupted_sleep_tick; Sample.topic_a_tick] (Sample.at_loop_head []) =
    (Raised KeyboardInterrupt,
     {| trace := [Sleep 15000];
        topics := [];
        s3config := S3Config_init Sample.watch_args |}).
Proof.
  split; [reflexivity|].
  apply (sleep_interrupt_propagates Sample.asjson Sample.watch_args
           Sample.interrupted_sleep_tick [Sample.topic_a_tick]
           (Sample.at_loop_head []) KeyboardInterrupt eq_refl).
Defined.

(** [loop_interrupt_converted] at a discovery and at an upload interrupted
    from the keyboard. *)
Lemma loop_interrupt_converted_witness :
  (ctx_parent Sample.watch_args = Some Sample.config /\
   sleep_result Sample.interrupted_discovery_tick = Returns tt /\
   tick_names Sample.interrupted_discovery_tick = Raises KeyboardInterrupt /\
   sleep_result Sample.interrupted_upload_tick = Returns tt /\
   tick_names Sample.interrupted_upload_tick = Returns ["a"] /\
   (list_to_set ["a"] : gset string) ∖ list_to_set [] <> ∅ /\
   tick_create_or_update Sample.interrupted_upload_tick = Raises KeyboardInterrupt) /\
  fst (auto_update_loop Sample.asjson Sample.watch_args
         [Sample.interrupted_discovery_tick; Sample.topic_a_tick]
         (Sample.at_loop_head [])) =
    Raised (ClickException "Interruped.") /\
  fst (auto_update_loop Sample.asjson Sample.watch_args
         [Sample.interrupted_upload_tick; Sample.topic_a_tick]
         (Sample.at_loop_head [])) =
    Raised (ClickException "Interruped.").
Proof.
  assert ((list_to_set ["a"] : gset string) ∖ list_to_set [] <> ∅) as Hd.
  { rewrite <- new_topics_nil_iff. vm_compute. discriminate. }
  split; [repeat split; try reflexivity; exact Hd|]. split.
  - apply (loop_interrupt_converted Sample.asjson Sample.watch_args
             Sample.interrupted_discovery_tick [Sample.topic_a_tick]
             (Sample.at_loop_head []) Sample.config eq_refl eq_refl
             (or_introl eq_refl)).
  - apply (loop_interrupt_converted Sample.asjson Sample.watch_args
             Sample.interrupted_upload_tick [Sample.topic_a_tick]
             (Sample.at_loop_head []) Sample.config eq_refl eq_refl
             (or_intror (ex_intro _ ["a"] (conj eq_refl (conj Hd eq_refl))))).
Defined.
